(** * build.py: interactive QCOW2 image builder with a dry-run mode

    A shallow embedding of [src/build.py] and the properties of its
    selection loops, pipeline assembly, command runner and naming.

    Conventions of the embedding:
    - Python [str] is [string]; a Python list of strings is [list string].
    - The terminal is a finite queue of pending key codes ([list Z]); an
      exhausted queue means [getch] blocks for ever. Drawing the menu
      (lines 37-42 and 61-73) reads the state without changing it and is
      left out, and with it the [curses.error] that [addstr] raises when
      the options do not fit the screen; signals (Ctrl-C) are left out as
      well. The statements below are about the key handling: the state
      the loops keep, and what they return once they return.
    - The filesystem is a finite map from absolute paths to node kinds.
    - [main] logs every call it makes to [os.makedirs], [run_cmd] and
      [print]; [run_cmd] translates a call into primitive effects. *)

From Stdlib Require Import ZArith String Ascii List Lia.
From stdpp Require Import base option list strings gmap fin_maps.

Local Open Scope Z_scope.

(** ** Configuration constants (build.py, lines 10-19) *)

Definition IMAGE_SIZE : string := "32G".
Definition WORKDIR_BASE : string := "/dev/shm/build".

(** A Python dict keeps insertion order, and [main] presents
    [list(BASE_IMAGE_URLS.keys())] in that order: an association list. *)
Definition BASE_IMAGE_URLS : list (string * string) :=
  [ ("debian-13",
     "https://cdimage.debian.org/images/cloud/trixie/latest/debian-13-genericcloud-amd64.qcow2");
    ("ubuntu-2204",
     "https://cloud-images.ubuntu.com/jammy/current/jammy-server-cloudimg-amd64.img") ].

(** [d[k]] on a dict; [None] stands for [KeyError]. *)
Fixpoint dict_get (d : list (string * string)) (k : string) : option string :=
  match d with
  | [] => None
  | (k', v) :: d' => if String.eqb k' k then Some v else dict_get d' k
  end.

Definition dict_keys (d : list (string * string)) : list string := map fst d.

(** ** Strings and paths *)

(** [sep.join(l)] *)
Definition str_join (sep : string) (l : list string) : string :=
  String.concat sep l.

(** [x in l] for a list of strings *)
Definition str_in (x : string) (l : list string) : bool :=
  existsb (String.eqb x) l.

Definition starts_with_slash (s : string) : bool :=
  match s with
  | String c _ => Ascii.eqb c "/"
  | EmptyString => false
  end.

Fixpoint ends_with_slash (s : string) : bool :=
  match s with
  | EmptyString => false
  | String c EmptyString => Ascii.eqb c "/"
  | String _ s' => ends_with_slash s'
  end.

(** [os.path.join(a, b)] for two components (posixpath). *)
Definition path_join (a b : string) : string :=
  if starts_with_slash b then b
  else if (String.eqb a "" || ends_with_slash a)%bool then a +:+ b
  else a +:+ "/" +:+ b.

(** [os.path.basename(p)]: what follows the last slash. *)
Fixpoint basename_aux (acc p : string) : string :=
  match p with
  | EmptyString => acc
  | String c p' =>
      if Ascii.eqb c "/" then basename_aux "" p'
      else basename_aux (acc +:+ String c "") p'
  end.

Definition basename (p : string) : string := basename_aux "" p.

(** ** The command runner (build.py, lines 24-29) *)

(** Primitive effects of the process on its environment. *)
Inductive effect :=
  | Stdout (line : string)       (* print(...) *)
  | OsSystem (command : string). (* os.system(...) *)

Definition run_cmd (DRY_RUN : bool) (cmd : list string) : list effect :=
  if DRY_RUN then
    [Stdout ("[Dry Run] $ " +:+ str_join " " cmd)]
  else
    [Stdout ("$ " +:+ str_join " " cmd); OsSystem (str_join " " cmd)].

(** [DRY_RUN = '--dry-run' in sys.argv] *)
Definition DRY_RUN_of (argv : list string) : bool := str_in "--dry-run" argv.

(** ** Naming (build.py, lines 144-147) *)

Definition tag (os_tag : string) (middle_scripts : list string) : string :=
  os_tag +:+ (match middle_scripts with
              | [] => ""
              | _ :: _ => "-" +:+ str_join "-" middle_scripts
              end).

Definition final_stem (os_tag : string) (middle_scripts : list string)
    (timestamp : string) : string :=
  tag os_tag middle_scripts +:+ "-" +:+ timestamp.

Definition final_img (os_tag : string) (middle_scripts : list string)
    (timestamp : string) : string :=
  final_stem os_tag middle_scripts timestamp +:+ ".img".

(** ** Python values and exceptions used by the loops *)

Inductive exn :=
  | IndexError
  | KeyError
  | ValueError
  | FileNotFoundError
  | FileExistsError
  | NotADirectoryError.

(** [l[i]] with Python's negative indices; [None] is [IndexError]. *)
Definition py_index {A} (l : list A) (i : Z) : option A :=
  let n := Z.of_nat (length l) in
  if (0 <=? i) && (i <? n) then l !! Z.to_nat i
  else if (- n <=? i) && (i <? 0) then l !! Z.to_nat (n + i)
  else None.

(** [l.remove(x)]: drops the first occurrence; [None] is [ValueError]. *)
Fixpoint py_remove (x : string) (l : list string) : option (list string) :=
  match l with
  | [] => None
  | y :: l' =>
      if String.eqb y x then Some l'
      else match py_remove x l' with
           | Some r => Some (y :: r)
           | None => None
           end
  end.

(** Key codes: [curses.KEY_UP], [curses.KEY_DOWN], [ord(' ')], and the two
    codes the loops accept as Enter. *)
Definition KEY_UP : Z := 259.
Definition KEY_DOWN : Z := 258.
Definition KEY_SPACE : Z := 32.
Definition is_enter (key : Z) : bool := (key =? 10) || (key =? 13).

(** One pass through the body of a [while True] loop. *)
Inductive step_result (S : Type) :=
  | Continue (s : S)
  | Break
  | Fail (e : exn).
Arguments Continue {S} s.
Arguments Break {S}.
Arguments Fail {S} e.

(** What a blocking selection loop does with a finite queue of keys. *)
Inductive outcome (A : Type) :=
  | Returned (a : A) (rest : list Z)
  | Raised (e : exn)
  | Blocked.
Arguments Returned {A} a rest.
Arguments Raised {A} e.
Arguments Blocked {A}.

(** Where a loop stands once a finite queue of keys has been fed to it. *)
Inductive stop (S : Type) :=
  | Waiting (s : S)                    (* queue exhausted, getch blocks *)
  | Confirmed (s : S) (rest : list Z)  (* broke out on Enter *)
  | Crashed (e : exn).
Arguments Waiting {S} s.
Arguments Confirmed {S} s rest.
Arguments Crashed {S} e.

(** ** Single select (build.py, lines 31-51) *)

Module Single.

(** Lines 43-49, on the cursor [selected]. *)
Definition step (options : list string) (key : Z) (selected : Z)
    : step_result Z :=
  if (key =? KEY_UP) && (selected >? 0) then Continue (selected - 1)
  else if (key =? KEY_DOWN) && (selected <? Z.of_nat (length options) - 1)
  then Continue (selected + 1)
  else if is_enter key then Break
  else Continue selected.

Fixpoint loop (options : list string) (keys : list Z) (selected : Z)
    : stop Z :=
  match keys with
  | [] => Waiting selected
  | key :: keys' =>
      match step options key selected with
      | Continue s => loop options keys' s
      | Break => Confirmed selected keys'
      | Fail e => Crashed e
      end
  end.

(** [selected = 0], the loop, then [return options[selected]]. *)
Definition tui_single_select (prompt : string) (options : list string)
    (keys : list Z) : outcome string :=
  match loop options keys 0 with
  | Waiting _ => Blocked
  | Confirmed selected rest =>
      match py_index options selected with
      | Some opt => Returned opt rest
      | None => Raised IndexError
      end
  | Crashed e => Raised e
  end.

End Single.

(** ** Ordered multi select (build.py, lines 53-89) *)

Module Multi.

Record state := { current : Z; selected : list string }.

Definition init : state := {| current := 0; selected := [] |}.

(** Lines 75-87. *)
Definition step (options : list string) (key : Z) (st : state)
    : step_result state :=
  if (key =? KEY_UP) && (current st >? 0) then
    Continue {| current := current st - 1; selected := selected st |}
  else if (key =? KEY_DOWN) && (current st <? Z.of_nat (length options) - 1)
  then Continue {| current := current st + 1; selected := selected st |}
  else if key =? KEY_SPACE then
    match py_index options (current st) with
    | None => Fail IndexError
    | Some opt =>
        if str_in opt (selected st) then
          match py_remove opt (selected st) with
          | Some l => Continue {| current := current st; selected := l |}
          | None => Fail ValueError
          end
        else
          Continue {| current := current st;
                      selected := selected st ++ [opt] |}
    end
  else if is_enter key then Break
  else Continue st.

Fixpoint loop (options : list string) (keys : list Z) (st : state)
    : stop state :=
  match keys with
  | [] => Waiting st
  | key :: keys' =>
      match step options key st with
      | Continue st' => loop options keys' st'
      | Break => Confirmed st keys'
      | Fail e => Crashed e
      end
  end.

Definition tui_ordered_multi_select (options : list string)
    (keys : list Z) : outcome (list string) :=
  match loop options keys init with
  | Waiting _ => Blocked
  | Confirmed st rest => Returned (selected st) rest
  | Crashed e => Raised e
  end.

End Multi.

(** What every state of the ordered multi-select satisfies, whatever the
    options: no option chosen twice, only presented options chosen. *)
Definition chosen_ok (options : list string) (st : Multi.state) : Prop :=
  NoDup (Multi.selected st)
  /\ forall x, x ∈ Multi.selected st -> x ∈ options.

(** ** The filesystem *)

Inductive node := File | Dir.

Global Instance node_eq_dec : EqDecision node.
Proof. solve_decision. Defined.

(** Absolute path of [p] for a process whose working directory is [cwd]. *)
Definition resolve (cwd p : string) : string := path_join cwd p.

Module FS.

(** [os.path.isfile], [os.path.exists] on an absolute path. *)
Definition isfile (fs : gmap string node) (p : string) : bool :=
  bool_decide (fs !! p = Some File).

Definition exists_ (fs : gmap string node) (p : string) : bool :=
  bool_decide (is_Some (fs !! p)).

Fixpoint strip_prefix (pre s : string) : option string :=
  match pre, s with
  | EmptyString, _ => Some s
  | String a pre', String b s' =>
      if Ascii.eqb a b then strip_prefix pre' s' else None
  | String _ _, EmptyString => None
  end.

Fixpoint has_slash (s : string) : bool :=
  match s with
  | EmptyString => false
  | String c s' => Ascii.eqb c "/" || has_slash s'
  end.

(** The name under which [k] is an entry of directory [d], if it is one. *)
Definition child_name (d k : string) : option string :=
  match strip_prefix (if ends_with_slash d then d else d +:+ "/") k with
  | Some n => if String.eqb n "" || has_slash n then None else Some n
  | None => None
  end.

(** [os.listdir(d)]: the entry names, in the arbitrary order of the map. *)
Definition listdir (fs : gmap string node) (d : string)
    : exn + list string :=
  match fs !! d with
  | Some Dir => inr (omap (child_name d) (map fst (map_to_list fs)))
  | Some File => inl NotADirectoryError
  | None => inl FileNotFoundError
  end.

(** The proper ancestors of a path, outermost first; the root is left
    out. [parents "/dev/shm/x" = ["/dev"; "/dev/shm"]]. *)
Fixpoint parents_aux (acc p : string) : list string :=
  match p with
  | EmptyString => []
  | String c p' =>
      (if Ascii.eqb c "/" && negb (String.eqb acc "") then [acc] else [])
      ++ parents_aux (acc +:+ String c "") p'
  end.

Definition parents (p : string) : list string := parents_aux "" p.

(** Creating the chain of directories [chain] from the top: an existing
    directory is kept, a regular file in the way is an error. *)
Fixpoint mkdir_chain (fs : gmap string node) (chain : list string)
    (leaf : string) : exn + gmap string node :=
  match chain with
  | [] => inr fs
  | q :: chain' =>
      match fs !! q with
      | Some Dir => mkdir_chain fs chain' leaf
      | Some File =>
          inl (if String.eqb q leaf then FileExistsError
               else NotADirectoryError)
      | None => mkdir_chain (<[q := Dir]> fs) chain' leaf
      end
  end.

(** [os.makedirs(p, exist_ok=True)] *)
Definition makedirs (fs : gmap string node) (p : string)
    : exn + gmap string node :=
  mkdir_chain fs (parents p ++ [p]) p.

End FS.

(** [sorted(l)] on strings: insertion sort by code-point order. *)
Fixpoint sorted_insert (x : string) (l : list string) : list string :=
  match l with
  | [] => [x]
  | y :: l' => if String.leb x y then x :: l else y :: sorted_insert x l'
  end.

Definition sorted (l : list string) : list string :=
  foldr sorted_insert [] l.

(** ** The process *)

(** The calls [main] makes that reach outside the process. *)
Inductive call :=
  | Makedirs (p : string)
  | RunCmd (cmd : list string)
  | Print (line : string).

(** State threaded through [main]: working directory, filesystem as changed
    by the process itself, pending keys, and the calls made so far. What an
    external command does once the shell runs it is not part of the model. *)
Record proc := {
  cwd : string;
  fs : gmap string node;
  keys : list Z;
  calls : list call
}.

(** Why [main] stops before its last line. *)
Inductive abort :=
  | SysExit (msg : string)       (* sys.exit(msg): msg on stderr, status 1 *)
  | Uncaught (e : exn)           (* traceback, status 1 *)
  | Hung.                        (* blocked in getch for ever *)

(** How a run of [main] ends. *)
Inductive ending :=
  | Done (final_dest : string)   (* ran to the last line, status 0 *)
  | Aborted (a : abort).

Definition exit_status (e : ending) : option Z :=
  match e with
  | Done _ => Some 0
  | Aborted (SysExit _) => Some 1
  | Aborted (Uncaught _) => Some 1
  | Aborted Hung => None
  end.

Definition M (A : Type) : Type := proc -> (A + abort) * proc.

Definition ret {A} (a : A) : M A := fun s => (inl a, s).

Definition bind {A B} (m : M A) (f : A -> M B) : M B :=
  fun s =>
    match m s with
    | (inl a, s') => f a s'
    | (inr e, s') => (inr e, s')
    end.

Definition stop_with {A} (e : abort) : M A := fun s => (inr e, s).

Notation "'let*' x ':=' m 'in' k" := (bind m (fun x => k))
  (at level 10, x name, m at level 100, k at level 200, only parsing).
Notation "'do*' m 'in' k" := (bind m (fun _ => k))
  (at level 10, m at level 100, k at level 200, only parsing).

Definition set_keys (ks : list Z) (s : proc) : proc :=
  {| cwd := cwd s; fs := fs s; keys := ks; calls := calls s |}.

Definition set_fs (f : gmap string node) (s : proc) : proc :=
  {| cwd := cwd s; fs := f; keys := keys s; calls := calls s |}.

Definition log (c : call) (s : proc) : proc :=
  {| cwd := cwd s; fs := fs s; keys := keys s; calls := calls s ++ [c] |}.

Definition of_outcome {A} (o : list Z -> outcome A) : M A :=
  fun s =>
    match o (keys s) with
    | Returned a rest => (inl a, set_keys rest s)
    | Raised e => (inr (Uncaught e), s)
    | Blocked => (inr Hung, set_keys [] s)
    end.

Definition tui_single_select (prompt : string) (options : list string)
    : M string :=
  of_outcome (Single.tui_single_select prompt options).

Definition tui_ordered_multi_select (options : list string)
    : M (list string) :=
  of_outcome (Multi.tui_ordered_multi_select options).

Definition isfile (p : string) : M bool :=
  fun s => (inl (FS.isfile (fs s) (resolve (cwd s) p)), s).

Definition path_exists (p : string) : M bool :=
  fun s => (inl (FS.exists_ (fs s) (resolve (cwd s) p)), s).

Definition listdir (d : string) : M (list string) :=
  fun s =>
    match FS.listdir (fs s) (resolve (cwd s) d) with
    | inr l => (inl l, s)
    | inl e => (inr (Uncaught e), s)
    end.

Definition makedirs (p : string) : M unit :=
  fun s =>
    match FS.makedirs (fs s) (resolve (cwd s) p) with
    | inr f => (inl tt, log (Makedirs p) (set_fs f s))
    | inl e => (inr (Uncaught e), log (Makedirs p) s)
    end.

Definition call_run_cmd (cmd : list string) : M unit :=
  fun s => (inl tt, log (RunCmd cmd) s).

Definition print (line : string) : M unit :=
  fun s => (inl tt, log (Print line) s).

Definition sys_exit {A} (msg : string) : M A := stop_with (SysExit msg).

Definition getcwd : M string := fun s => (inl (cwd s), s).

Definition lookup_url (os_tag : string) : M string :=
  match dict_get BASE_IMAGE_URLS os_tag with
  | Some u => ret u
  | None => stop_with (Uncaught KeyError)
  end.

(** [[f for f in l if os.path.isfile(os.path.join(d, f)) and f not in
    ['base', 'clean']]] *)
Fixpoint regular_non_anchor (d : string) (l : list string)
    : M (list string) :=
  match l with
  | [] => ret []
  | f :: l' =>
      let* b := isfile (path_join d f) in
      let* r := regular_non_anchor d l' in
      ret (if b && negb (str_in f ["base"; "clean"]) then f :: r else r)
  end.

(** [DOWNLOAD_DIR = os.path.abspath('./download')] and
    [OUTPUT_DIR = os.path.abspath('./output')], for a normalised working
    directory. *)
Definition DOWNLOAD_DIR (cwd : string) : string := path_join cwd "download".
Definition OUTPUT_DIR (cwd : string) : string := path_join cwd "output".

(** Lines 136-138: the argument vector of the one customize command. *)
Definition customize_cmd (image_path script_dir : string)
    (scripts : list string) : list string :=
  foldl (fun acc s => acc ++ ["--commands-from-file"; path_join script_dir s])
        ["virt-customize"; "-a"; image_path] scripts.

(** Line 115. *)
Definition assemble (middle_scripts : list string) : list string :=
  ["base"] ++ middle_scripts ++ ["clean"].

(** ** main (build.py, lines 91-150); [timestamp] is the clock reading
    [datetime.now().strftime('%Y%m%d_%H%M%S')]. *)
Definition main (timestamp : string) : M string :=
  let* os_tag := tui_single_select "Select target OS:" (dict_keys BASE_IMAGE_URLS) in
  let* base_url := lookup_url os_tag in
  let* here := getcwd in
  let base_name := basename base_url in
  let base_path := path_join (DOWNLOAD_DIR here) base_name in
  let script_dir := path_join "script" os_tag in
  let base_script := path_join script_dir "base" in
  let clean_script := path_join script_dir "clean" in
  let* has_base := isfile base_script in
  do* (if has_base then ret tt
       else sys_exit ("Missing script: " +:+ base_script)) in
  let* has_clean := isfile clean_script in
  do* (if has_clean then ret tt
       else sys_exit ("Missing script: " +:+ clean_script)) in
  let* entries := listdir script_dir in
  let* candidates := regular_non_anchor script_dir entries in
  let all_scripts := sorted candidates in
  let* middle_scripts := (match all_scripts with
                          | [] => ret []
                          | _ :: _ => tui_ordered_multi_select all_scripts
                          end) in
  let scripts := assemble middle_scripts in
  do* makedirs (DOWNLOAD_DIR here) in
  do* makedirs (OUTPUT_DIR here) in
  let workdir := path_join WORKDIR_BASE timestamp in
  do* makedirs workdir in
  let* cached := path_exists base_path in
  do* (if negb cached then call_run_cmd ["axel"; base_url; "-o"; base_path]
       else print ("Using existing image: " +:+ base_path)) in
  let image_path := path_join workdir (timestamp +:+ ".img") in
  let compressed_path := path_join workdir (timestamp +:+ "-compressed.img") in
  do* call_run_cmd ["qemu-img"; "create"; "-f"; "qcow2"; image_path; IMAGE_SIZE] in
  do* call_run_cmd ["virt-resize"; "--expand"; "/dev/sda1"; base_path; image_path] in
  do* call_run_cmd (customize_cmd image_path script_dir scripts) in
  do* call_run_cmd ["virt-sparsify"; "--compress"; "--tmp"; "/dev/shm/";
                    image_path; compressed_path] in
  let final_dest := path_join (OUTPUT_DIR here)
                      (final_img os_tag middle_scripts timestamp) in
  do* call_run_cmd ["cp"; compressed_path; final_dest] in
  do* call_run_cmd ["rm"; "-rf"; workdir] in
  do* print (String (ascii_of_nat 10) "" +:+ "Final image ready at: " +:+ final_dest) in
  ret final_dest.

(** The primitive effects of a logged call under a given dry-run flag.
    [os.makedirs] acts on the filesystem directly, whatever the flag. *)
Inductive prim :=
  | Eff (e : effect)
  | Mkdir (p : string).

Definition prims (DRY_RUN : bool) (c : call) : list prim :=
  match c with
  | Makedirs p => [Mkdir p]
  | RunCmd cmd => map Eff (run_cmd DRY_RUN cmd)
  | Print line => [Eff (Stdout line)]
  end.

(** A whole run: the flag comes from [sys.argv]. *)
Record run := {
  run_end : ending;
  run_calls : list call;
  run_fs : gmap string node;
  run_effects : list prim
}.

Definition start (cwd0 : string) (fs0 : gmap string node) (keys0 : list Z)
    : proc :=
  {| cwd := cwd0; fs := fs0; keys := keys0; calls := [] |}.

Definition build (argv : list string) (timestamp cwd0 : string)
    (fs0 : gmap string node) (keys0 : list Z) : run :=
  let '(r, s) := main timestamp (start cwd0 fs0 keys0) in
  {| run_end := match r with inl d => Done d | inr a => Aborted a end;
     run_calls := calls s;
     run_fs := fs s;
     run_effects := concat (map (prims (DRY_RUN_of argv)) (calls s)) |}.

(** ** Phases of [main]

    [main] reads the terminal and the filesystem first (lines 94-115) and
    only then creates directories and issues commands (lines 117-150). The
    two halves are named here so that lemmas can speak of each; [main] is
    their composition ([main_phases]). *)

Definition script_dir_of (os_tag : string) : string := path_join "script" os_tag.

Definition front : M (string * string * list string) :=
  let* os_tag := tui_single_select "Select target OS:" (dict_keys BASE_IMAGE_URLS) in
  let* base_url := lookup_url os_tag in
  let script_dir := script_dir_of os_tag in
  let* has_base := isfile (path_join script_dir "base") in
  do* (if has_base then ret tt
       else sys_exit ("Missing script: " +:+ path_join script_dir "base")) in
  let* has_clean := isfile (path_join script_dir "clean") in
  do* (if has_clean then ret tt
       else sys_exit ("Missing script: " +:+ path_join script_dir "clean")) in
  let* entries := listdir script_dir in
  let* candidates := regular_non_anchor script_dir entries in
  let* middle_scripts := (match sorted candidates with
                          | [] => ret []
                          | _ :: _ => tui_ordered_multi_select (sorted candidates)
                          end) in
  ret (os_tag, base_url, middle_scripts).

Definition base_path_of (here base_url : string) : string :=
  path_join (DOWNLOAD_DIR here) (basename base_url).

Definition workdir_of (timestamp : string) : string :=
  path_join WORKDIR_BASE timestamp.

Definition final_dest_of (here os_tag : string) (middle_scripts : list string)
    (timestamp : string) : string :=
  path_join (OUTPUT_DIR here) (final_img os_tag middle_scripts timestamp).

(** The commands of lines 134-149, in order. *)
Definition commands (here timestamp os_tag base_url : string)
    (middle_scripts : list string) : list (list string) :=
  let workdir := workdir_of timestamp in
  let base_path := base_path_of here base_url in
  let image_path := path_join workdir (timestamp +:+ ".img") in
  let compressed_path := path_join workdir (timestamp +:+ "-compressed.img") in
  [ ["qemu-img"; "create"; "-f"; "qcow2"; image_path; IMAGE_SIZE];
    ["virt-resize"; "--expand"; "/dev/sda1"; base_path; image_path];
    customize_cmd image_path (script_dir_of os_tag) (assemble middle_scripts);
    ["virt-sparsify"; "--compress"; "--tmp"; "/dev/shm/";
     image_path; compressed_path];
    ["cp"; compressed_path; final_dest_of here os_tag middle_scripts timestamp];
    ["rm"; "-rf"; workdir] ].

Definition acquire_cmd (here base_url : string) : list string :=
  ["axel"; base_url; "-o"; base_path_of here base_url].

(** Everything [main] calls from line 118 on when no [os.makedirs] fails;
    [cached] is the answer of [os.path.exists(base_path)] on line 124. *)
Definition plan (here timestamp os_tag base_url : string)
    (middle_scripts : list string) (cached : bool) : list call :=
  [ Makedirs (DOWNLOAD_DIR here); Makedirs (OUTPUT_DIR here);
    Makedirs (workdir_of timestamp) ]
  ++ [ if cached
       then Print ("Using existing image: " +:+ base_path_of here base_url)
       else RunCmd (acquire_cmd here base_url) ]
  ++ map RunCmd (commands here timestamp os_tag base_url middle_scripts)
  ++ [ Print (String (ascii_of_nat 10) "" +:+ "Final image ready at: "
              +:+ final_dest_of here os_tag middle_scripts timestamp) ].

(** Lines 117-150, for the choices made in the first half. *)
Definition back (timestamp os_tag base_url : string)
    (middle_scripts : list string) : M string :=
  let* here := getcwd in
  let base_path := base_path_of here base_url in
  let workdir := workdir_of timestamp in
  do* makedirs (DOWNLOAD_DIR here) in
  do* makedirs (OUTPUT_DIR here) in
  do* makedirs workdir in
  let* cached := path_exists base_path in
  do* (if negb cached then call_run_cmd (acquire_cmd here base_url)
       else print ("Using existing image: " +:+ base_path)) in
  do* foldr (fun cmd k => do* call_run_cmd cmd in k) (ret tt)
        (commands here timestamp os_tag base_url middle_scripts) in
  let final_dest := final_dest_of here os_tag middle_scripts timestamp in
  do* print (String (ascii_of_nat 10) "" +:+ "Final image ready at: "
             +:+ final_dest) in
  ret final_dest.

(** The anchor that line 104 or line 106 reports, if any. *)
Definition missing_anchor (fs0 : gmap string node) (here os_tag : string)
    : option string :=
  if FS.isfile fs0 (resolve here (path_join (script_dir_of os_tag) "base"))
  then
    if FS.isfile fs0 (resolve here (path_join (script_dir_of os_tag) "clean"))
    then None
    else Some (path_join (script_dir_of os_tag) "clean")
  else Some (path_join (script_dir_of os_tag) "base").

(** A call to [run_cmd] whose program is the download tool. *)
Definition is_acquisition (c : call) : bool :=
  match c with
  | RunCmd (prog :: _) => String.eqb prog "axel"
  | _ => false
  end.

Definition is_mkdir (p : prim) : bool :=
  match p with
  | Mkdir _ => true
  | _ => false
  end.

Global Instance effect_eq_dec : EqDecision effect.
Proof. solve_decision. Defined.

Global Instance prim_eq_dec : EqDecision prim.
Proof. solve_decision. Defined.

Global Instance call_eq_dec : EqDecision call.
Proof. solve_decision. Defined.

Definition is_makedirs (c : call) : bool :=
  match c with
  | Makedirs _ => true
  | _ => false
  end.

(** How many download commands a log of calls holds. *)
Definition count_acquisitions (l : list call) : nat :=
  length (List.filter is_acquisition l).

(** ** The naming contract in the words of the specification *)

(** [deriveIdentity(osTag, orderedTags, timestamp)]: the OS tag alone when
    there are no tags, otherwise the OS tag, a hyphen and the hyphen-joined
    tags; always followed by a hyphen and the timestamp. *)
Fixpoint hyphen_joined (tags : list string) : string :=
  match tags with
  | [] => ""
  | [t] => t
  | t :: tags' => t +:+ "-" +:+ hyphen_joined tags'
  end.

Definition deriveIdentity (osTag : string) (orderedTags : list string)
    (timestamp : string) : string :=
  (if bool_decide (orderedTags = []) then osTag
   else osTag +:+ "-" +:+ hyphen_joined orderedTags)
  +:+ "-" +:+ timestamp.

(** The formatted command in the words of the specification: the argument
    vector with single spaces in between, nothing quoted or escaped. *)
Fixpoint space_joined (argv : list string) : string :=
  match argv with
  | [] => ""
  | [a] => a
  | a :: argv' => a +:+ " " +:+ space_joined argv'
  end.

(** What a dry run prints for a command. *)
Definition dry_report (cmd : list string) : prim :=
  Eff (Stdout ("[Dry Run] $ " +:+ space_joined cmd)).

(** A sample world: a checkout in [/home/u] with two optional scripts for
    debian-13 and none of the shared directories created yet. *)
Definition sample_fs : gmap string node :=
  list_to_map
    [ ("/home", Dir); ("/home/u", Dir); ("/home/u/script", Dir);
      ("/home/u/script/debian-13", Dir);
      ("/home/u/script/debian-13/users", File);
      ("/home/u/script/debian-13/base", File);
      ("/home/u/script/debian-13/clean", File);
      ("/home/u/script/debian-13/net", File);
      ("/home/u/script/ubuntu-2204", Dir);
      ("/home/u/script/ubuntu-2204/base", File) ].

(** The same world after an earlier run left the debian image in the
    download directory. *)
Definition sample_fs_cached : gmap string node :=
  <["/home/u/download/debian-13-genericcloud-amd64.qcow2" := File]>
    (<["/home/u/download" := Dir]> sample_fs).

(** ** Readings of a log *)

(** The argument vectors [main] passed to [run_cmd], in order. *)
Definition issued (l : list call) : list (list string) :=
  omap (fun c => match c with RunCmd cmd => Some cmd | _ => None end) l.

(** The strings a run handed to [os.system], in order. *)
Definition shell_commands (l : list prim) : list string :=
  omap (fun p => match p with Eff (OsSystem c) => Some c | _ => None end) l.

(** The test of lines 111-112 on one directory entry, and the entries that
    pass it. *)
Definition is_candidate (fs0 : gmap string node) (here d f : string) : bool :=
  FS.isfile fs0 (resolve here (path_join d f))
  && negb (str_in f ["base"; "clean"]).

Definition candidates_of (fs0 : gmap string node) (here d : string)
    (entries : list string) : list string :=
  List.filter (is_candidate fs0 here d) entries.

(** ** What a run chose and what it may create *)

(** The paths the three [os.makedirs] calls of lines 118-121 may create:
    each target and its ancestors. *)
Definition created_dirs (cwd0 timestamp : string) : list string :=
  (FS.parents (resolve cwd0 (DOWNLOAD_DIR cwd0))
     ++ [resolve cwd0 (DOWNLOAD_DIR cwd0)])
  ++ (FS.parents (resolve cwd0 (OUTPUT_DIR cwd0))
        ++ [resolve cwd0 (OUTPUT_DIR cwd0)])
  ++ (FS.parents (resolve cwd0 (workdir_of timestamp))
        ++ [resolve cwd0 (workdir_of timestamp)]).

(** [os_tag] and [middle] are what the two menus of lines 95 and 114 return
    on the keys [keys0]: the OS menu reads first, the customization menu
    reads what is left, over the sorted optional scripts of the OS; without
    optional scripts no menu is shown and the selection is empty. *)
Definition selected_by (cwd0 : string) (fs0 : gmap string node)
    (keys0 : list Z) (os_tag : string) (middle : list string) : Prop :=
  exists rest entries,
    Single.tui_single_select "Select target OS:"
      (dict_keys BASE_IMAGE_URLS) keys0 = Returned os_tag rest
    /\ FS.listdir fs0 (resolve cwd0 (script_dir_of os_tag)) = inr entries
    /\ match sorted (candidates_of fs0 cwd0 (script_dir_of os_tag) entries)
       with
       | [] => middle = []
       | opt :: opts =>
           exists rest',
             Multi.tui_ordered_multi_select (opt :: opts) rest
             = Returned middle rest'
       end.

(** [fb] is [fa] with some directories of [dirs] added where nothing was:
    no entry removed, none changed. *)
Definition only_adds_dirs (fa fb : gmap string node) (dirs : list string)
    : Prop :=
  forall q, fb !! q = fa !! q
            \/ (fa !! q = None /\ fb !! q = Some Dir /\ q ∈ dirs).

(** * Properties *)

(** ** Strings *)

Lemma string_app_cons (x : ascii) (a b : string) :
  String x a +:+ b = String x (a +:+ b).
Proof. reflexivity. Qed.

Lemma string_app_nil_l (b : string) : "" +:+ b = b.
Proof. reflexivity. Qed.

Lemma string_app_assoc (a b c : string) : (a +:+ b) +:+ c = a +:+ (b +:+ c).
Proof.
  induction a as [|x a' IH]; [reflexivity|].
  rewrite !string_app_cons. now f_equal.
Qed.

Lemma string_app_empty_r (a : string) : a +:+ "" = a.
Proof.
  induction a as [|x a' IH]; [reflexivity|].
  rewrite string_app_cons. now f_equal.
Qed.

Lemma string_app_length (a b : string) :
  String.length (a +:+ b) = (String.length a + String.length b)%nat.
Proof.
  induction a as [|x a' IH]; [reflexivity|].
  rewrite string_app_cons. simpl. now f_equal.
Qed.

Lemma str_join_space_joined (argv : list string) :
  str_join " " argv = space_joined argv.
Proof.
  unfold str_join.
  induction argv as [|a [|b argv'] IH]; try reflexivity.
  change (a +:+ " " +:+ String.concat " " (b :: argv')
          = a +:+ " " +:+ space_joined (b :: argv')).
  now rewrite IH.
Qed.

Lemma str_join_hyphen_joined (tags : list string) :
  str_join "-" tags = hyphen_joined tags.
Proof.
  unfold str_join.
  induction tags as [|a [|b tags'] IH]; try reflexivity.
  change (a +:+ "-" +:+ String.concat "-" (b :: tags')
          = a +:+ "-" +:+ hyphen_joined (b :: tags')).
  now rewrite IH.
Qed.

Lemma str_in_true (x : string) (l : list string) :
  str_in x l = true <-> x ∈ l.
Proof.
  unfold str_in. rewrite existsb_exists. split.
  - intros (y & Hy & Heq). apply String.eqb_eq in Heq. subst y.
    now apply list_elem_of_In.
  - intros Hx. exists x. split; [now apply list_elem_of_In|].
    apply String.eqb_refl.
Qed.

Lemma str_in_false (x : string) (l : list string) :
  str_in x l = false <-> x ∉ l.
Proof.
  rewrite <- str_in_true. destruct (str_in x l); split; congruence.
Qed.

(** ** The command runner *)

(** C10: in both modes [run_cmd] formats one string, the argument vector
    joined by single spaces with nothing quoted or escaped; the dry run
    reports exactly the string that the real run reports and hands to the
    shell, and the modes differ only in whether it is executed. *)
Theorem run_cmd_same_string (cmd : list string) :
  let s := space_joined cmd in
  run_cmd true cmd = [Stdout ("[Dry Run] $ " +:+ s)]
  /\ run_cmd false cmd = [Stdout ("$ " +:+ s); OsSystem s]
  /\ (forall c, OsSystem c ∉ run_cmd true cmd)
  /\ (forall c, OsSystem c ∈ run_cmd false cmd <-> c = s)
  /\ space_joined ["rm"; "-rf"; "a b"] = space_joined ["rm"; "-rf"; "a"; "b"].
Proof.
  cbv zeta. unfold run_cmd. rewrite str_join_space_joined.
  repeat split.
  - intros c Hc. apply list_elem_of_singleton in Hc. discriminate.
  - intros Hc. apply elem_of_cons in Hc as [Hc | Hc]; [discriminate|].
    apply list_elem_of_singleton in Hc. congruence.
  - intros ->. right. left.
Qed.

(** ** Naming *)

Lemma stem_deriveIdentity (os_tag : string)
    (middle_scripts : list string) (timestamp : string) :
  final_stem os_tag middle_scripts timestamp
    = deriveIdentity os_tag middle_scripts timestamp
  /\ final_img os_tag middle_scripts timestamp
    = deriveIdentity os_tag middle_scripts timestamp +:+ ".img".
Proof.
  assert (Hstem : final_stem os_tag middle_scripts timestamp
                  = deriveIdentity os_tag middle_scripts timestamp).
  { unfold final_stem, deriveIdentity, tag.
    destruct middle_scripts as [|t tags].
    - rewrite bool_decide_eq_true_2 by reflexivity.
      now rewrite string_app_empty_r.
    - rewrite bool_decide_eq_false_2 by discriminate.
      now rewrite str_join_hyphen_joined. }
  split; [exact Hstem|]. unfold final_img. now rewrite Hstem.
Qed.

(** C6: the stem computed on lines 145-146 is [deriveIdentity]: the OS tag
    alone for no tags, else the OS tag, a hyphen and the hyphen-joined tags,
    always followed by a hyphen and the timestamp; the two sample values of
    the specification come out as stated. *)
Theorem final_stem_is_deriveIdentity (os_tag : string)
    (middle_scripts : list string) (timestamp : string) :
  final_stem os_tag middle_scripts timestamp
    = deriveIdentity os_tag middle_scripts timestamp
  /\ final_img os_tag middle_scripts timestamp
    = deriveIdentity os_tag middle_scripts timestamp +:+ ".img"
  /\ final_stem os_tag [] timestamp = os_tag +:+ "-" +:+ timestamp
  /\ final_stem "ubuntu-2204" [] "20240101_000000"
    = "ubuntu-2204-20240101_000000"
  /\ final_stem "debian-13" ["net"; "users"] "20240101_000000"
    = "debian-13-net-users-20240101_000000".
Proof.
  destruct (stem_deriveIdentity os_tag middle_scripts timestamp)
    as [Hstem Himg].
  repeat split; try reflexivity; try assumption.
  unfold final_stem, tag. now rewrite string_app_empty_r.
Qed.

(** ** Pipeline assembly *)

Lemma customize_cmd_flat (image_path script_dir : string)
    (scripts : list string) :
  customize_cmd image_path script_dir scripts
  = ["virt-customize"; "-a"; image_path]
    ++ flat_map (fun s => ["--commands-from-file"; path_join script_dir s])
                scripts.
Proof.
  unfold customize_cmd.
  generalize ["virt-customize"; "-a"; image_path] as acc.
  induction scripts as [|s scripts IH]; intros acc; simpl.
  - now rewrite app_nil_r.
  - rewrite IH. now rewrite <- app_assoc.
Qed.

(** C1: for every ordered selection the stage list of line 115 is [base],
    the selection in selection order, then [clean]: index 0 is [base], index
    -1 is [clean], and the empty selection gives exactly [base; clean], of
    length 2. The customize command lists the stages in that order. *)
Theorem assemble_anchored (orderedChosen : list string) :
  assemble orderedChosen = ["base"] ++ orderedChosen ++ ["clean"]
  /\ py_index (assemble orderedChosen) 0 = Some "base"
  /\ py_index (assemble orderedChosen) (-1) = Some "clean"
  /\ (forall i : nat, (i < length orderedChosen)%nat ->
        assemble orderedChosen !! S i = orderedChosen !! i)
  /\ length (assemble orderedChosen) = (length orderedChosen + 2)%nat
  /\ assemble [] = ["base"; "clean"]
  /\ length (assemble []) = 2%nat
  /\ (forall image_path script_dir,
        customize_cmd image_path script_dir (assemble orderedChosen)
        = ["virt-customize"; "-a"; image_path;
           "--commands-from-file"; path_join script_dir "base"]
          ++ flat_map (fun s => ["--commands-from-file";
                                 path_join script_dir s]) orderedChosen
          ++ ["--commands-from-file"; path_join script_dir "clean"]).
Proof.
  assert (Hlen : length (assemble orderedChosen)
                 = (length orderedChosen + 2)%nat).
  { unfold assemble. simpl. rewrite length_app. simpl. lia. }
  repeat split; try reflexivity; try exact Hlen.
  - unfold py_index. rewrite Hlen.
    replace (0 <=? -1) with false by reflexivity. simpl andb.
    replace ((- Z.of_nat (length orderedChosen + 2) <=? -1) && (-1 <? 0))
      with true
      by (symmetry; apply andb_true_iff; split;
          [apply Z.leb_le | apply Z.ltb_lt]; lia).
    replace (Z.to_nat (Z.of_nat (length orderedChosen + 2) + -1))
      with (S (length orderedChosen + 0)) by lia.
    unfold assemble. simpl.
    rewrite lookup_app_r by lia.
    now replace (length orderedChosen + 0 - length orderedChosen)%nat
      with 0%nat by lia.
  - intros i Hi. unfold assemble. simpl. now rewrite lookup_app_l.
  - intros image_path script_dir. rewrite customize_cmd_flat.
    unfold assemble. simpl. rewrite flat_map_app. reflexivity.
Qed.

(** ** Selection loops *)

Lemma is_enter_not_arrow (key : Z) :
  is_enter key = true -> (key =? KEY_UP) = false /\ (key =? KEY_DOWN) = false
                         /\ (key =? KEY_SPACE) = false.
Proof.
  unfold is_enter, KEY_UP, KEY_DOWN, KEY_SPACE. intros H.
  apply orb_true_iff in H as [H | H]; apply Z.eqb_eq in H; subst key;
    repeat split; reflexivity.
Qed.

Lemma py_index_in_range {A} (l : list A) (i : Z) :
  0 <= i < Z.of_nat (length l) -> py_index l i = l !! Z.to_nat i.
Proof.
  intros [Hlo Hhi]. unfold py_index.
  apply Z.leb_le in Hlo. apply Z.ltb_lt in Hhi. now rewrite Hlo, Hhi.
Qed.

Lemma py_index_some_in_range {A} (l : list A) (i : Z) :
  0 <= i < Z.of_nat (length l) -> is_Some (py_index l i).
Proof.
  intros H. rewrite py_index_in_range by exact H.
  apply lookup_lt_is_Some. lia.
Qed.

Lemma py_index_elem_of {A} (l : list A) (i : Z) (x : A) :
  py_index l i = Some x -> x ∈ l.
Proof.
  unfold py_index. intros H.
  destruct ((0 <=? i) && (i <? Z.of_nat (length l)));
    [|destruct ((- Z.of_nat (length l) <=? i) && (i <? 0)); [|discriminate]];
    apply list_elem_of_lookup; eauto.
Qed.

Lemma py_index_nil {A} (i : Z) : py_index (@nil A) i = None.
Proof.
  destruct (py_index (@nil A) i) as [x|] eqn:E; [|reflexivity].
  apply py_index_elem_of in E. now apply elem_of_nil in E.
Qed.

Section SingleSelect.

Variable options : list string.

Let n : Z := Z.of_nat (length options).

Lemma single_step_range (key c c' : Z) :
  0 <= c < n -> Single.step options key c = Continue c' -> 0 <= c' < n.
Proof.
  unfold Single.step. fold n. intros Hc.
  destruct (key =? KEY_UP); simpl.
  - destruct (c >? 0) eqn:E; simpl.
    + intros [= <-]. apply Z.gtb_lt in E. lia.
    + destruct ((key =? KEY_DOWN) && (c <? n - 1)) eqn:E2.
      * intros [= <-]. apply andb_true_iff in E2 as [_ E2].
        apply Z.ltb_lt in E2. lia.
      * destruct (is_enter key); [discriminate|]. now intros [= <-].
  - destruct ((key =? KEY_DOWN) && (c <? n - 1)) eqn:E2.
    + intros [= <-]. apply andb_true_iff in E2 as [_ E2].
      apply Z.ltb_lt in E2. lia.
    + destruct (is_enter key); [discriminate|]. now intros [= <-].
Qed.

Lemma single_step_never_fails (key c : Z) (e : exn) :
  Single.step options key c <> Fail e.
Proof.
  unfold Single.step.
  destruct ((key =? KEY_UP) && (c >? 0)); [discriminate|].
  destruct ((key =? KEY_DOWN) && (c <? Z.of_nat (length options) - 1));
    [discriminate|].
  destruct (is_enter key); discriminate.
Qed.

Lemma single_step_enter (key c : Z) :
  is_enter key = true -> Single.step options key c = Break.
Proof.
  intros H. unfold Single.step.
  destruct (is_enter_not_arrow key H) as (-> & -> & _). simpl.
  now rewrite H.
Qed.

Lemma single_loop_range (keys : list Z) (c : Z) :
  0 <= c < n ->
  match Single.loop options keys c with
  | Waiting c' => 0 <= c' < n
  | Confirmed c' _ => 0 <= c' < n
  | Crashed _ => False
  end.
Proof.
  revert c. induction keys as [|key keys IH]; intros c Hc; simpl.
  - exact Hc.
  - destruct (Single.step options key c) as [c'| |e] eqn:E.
    + apply IH. eapply single_step_range; eauto.
    + exact Hc.
    + now apply single_step_never_fails in E.
Qed.

(** The loop leaves through Enter as soon as the queue holds one. *)
Lemma single_loop_confirms (keys : list Z) (c : Z) :
  existsb is_enter keys = true ->
  exists c' rest, Single.loop options keys c = Confirmed c' rest.
Proof.
  revert c. induction keys as [|key keys IH]; intros c; simpl.
  - discriminate.
  - intros H. destruct (Single.step options key c) as [c1| |e] eqn:E.
    + destruct (is_enter key) eqn:Ek.
      * rewrite single_step_enter in E by exact Ek. discriminate.
      * simpl in H. now apply IH.
    + eauto.
    + now apply single_step_never_fails in E.
Qed.

Lemma single_loop_blocks (keys : list Z) (c : Z) :
  existsb is_enter keys = false ->
  exists c', Single.loop options keys c = Waiting c'.
Proof.
  revert c. induction keys as [|key keys IH]; intros c; simpl.
  - eauto.
  - intros H. apply orb_false_iff in H as [Hk H].
    destruct (Single.step options key c) as [c1| |e] eqn:E.
    + now apply IH.
    + unfold Single.step in E.
      destruct ((key =? KEY_UP) && (c >? 0)); [discriminate|].
      destruct ((key =? KEY_DOWN) && (c <? Z.of_nat (length options) - 1));
        [discriminate|].
      rewrite Hk in E. discriminate.
    + now apply single_step_never_fails in E.
Qed.

End SingleSelect.

Lemma filter_all (P : string -> Prop) `{!forall y, Decision (P y)}
    (l : list string) :
  (forall y, y ∈ l -> P y) -> filter P l = l.
Proof.
  induction l as [|y l IH]; intros Hall; [reflexivity|].
  rewrite filter_cons_True by (apply Hall; left).
  f_equal. apply IH. intros z Hz. apply Hall. now right.
Qed.

Lemma py_remove_some (x : string) (l r : list string) :
  py_remove x l = Some r ->
  x ∈ l /\ (forall y, y ∈ r -> y ∈ l)
  /\ (NoDup l -> NoDup r /\ (x ∉ r) /\ r = filter (.≠ x) l).
Proof.
  revert r. induction l as [|y l IH]; intros r; simpl; [discriminate|].
  destruct (String.eqb y x) eqn:E.
  - apply String.eqb_eq in E. subst y. intros [= <-].
    split; [left|]. split; [intros y Hy; now right|].
    intros Hnd. apply NoDup_cons in Hnd as [Hx Hnd].
    split; [exact Hnd|]. split; [exact Hx|].
    rewrite filter_cons_False by (intros H; now apply H).
    symmetry. apply filter_all.
    intros y Hy ->. contradiction.
  - apply String.eqb_neq in E.
    destruct (py_remove x l) as [r'|]; [|discriminate].
    intros [= <-]. destruct (IH r' eq_refl) as (Hin & Hsub & Hnd).
    split; [now right|]. split.
    + intros z Hz. apply elem_of_cons in Hz as [-> | Hz]; [left|right; auto].
    + intros Hl. apply NoDup_cons in Hl as [Hy Hl].
      destruct (Hnd Hl) as (Hr & Hx & Hf).
      split; [apply NoDup_cons; split; [|exact Hr]; intros Hy'; auto|].
      split.
      * intros Hx'. apply elem_of_cons in Hx' as [-> | Hx']; auto.
      * rewrite filter_cons_True by exact E. now f_equal.
Qed.

Lemma py_remove_elem (x : string) (l : list string) :
  x ∈ l -> is_Some (py_remove x l).
Proof.
  induction l as [|y l IH]; intros Hx; simpl.
  - now apply elem_of_nil in Hx.
  - destruct (String.eqb y x) eqn:E; [eauto|].
    apply String.eqb_neq in E.
    apply elem_of_cons in Hx as [-> | Hx]; [congruence|].
    destruct (IH Hx) as [r ->]. eauto.
Qed.

Section MultiSelect.

Variable options : list string.

Let n : Z := Z.of_nat (length options).

Lemma multi_step_chosen_ok (key : Z) (st st' : Multi.state) :
  chosen_ok options st ->
  Multi.step options key st = Continue st' -> chosen_ok options st'.
Proof.
  intros [Hnd Hin]. unfold Multi.step.
  destruct ((key =? KEY_UP) && (Multi.current st >? 0));
    [intros [= <-]; now split|].
  destruct ((key =? KEY_DOWN)
            && (Multi.current st <? Z.of_nat (length options) - 1));
    [intros [= <-]; now split|].
  destruct (key =? KEY_SPACE).
  - destruct (py_index options (Multi.current st)) as [opt|] eqn:Eo;
      [|discriminate].
    destruct (str_in opt (Multi.selected st)) eqn:Es.
    + destruct (py_remove opt (Multi.selected st)) as [r|] eqn:Er;
        [|discriminate].
      intros [= <-]. apply py_remove_some in Er as (_ & Hsub & Hr).
      split; simpl; [apply Hr, Hnd | auto].
    + intros [= <-]. apply str_in_false in Es. split; simpl.
      * apply NoDup_app. split; [exact Hnd|]. split.
        -- intros x Hx Hx'. apply list_elem_of_singleton in Hx'. now subst x.
        -- apply NoDup_singleton.
      * intros x Hx. apply elem_of_app in Hx as [Hx | Hx]; [auto|].
        apply list_elem_of_singleton in Hx. subst x.
        eapply py_index_elem_of; eauto.
  - destruct (is_enter key); [discriminate|]. now intros [= <-].
Qed.

Lemma multi_step_range (key : Z) (st st' : Multi.state) :
  0 <= Multi.current st < n ->
  Multi.step options key st = Continue st' ->
  0 <= Multi.current st' < n.
Proof.
  intros Hc. unfold Multi.step. fold n.
  destruct ((key =? KEY_UP) && (Multi.current st >? 0)) eqn:E1.
  { intros [= <-]. simpl. apply andb_true_iff in E1 as [_ E1].
    apply Z.gtb_lt in E1. lia. }
  destruct ((key =? KEY_DOWN) && (Multi.current st <? n - 1)) eqn:E2.
  { intros [= <-]. simpl. apply andb_true_iff in E2 as [_ E2].
    apply Z.ltb_lt in E2. lia. }
  destruct (key =? KEY_SPACE).
  - destruct (py_index options (Multi.current st)) as [opt|];
      [|discriminate].
    destruct (str_in opt (Multi.selected st)).
    + destruct (py_remove opt (Multi.selected st)); [|discriminate].
      now intros [= <-].
    + now intros [= <-].
  - destruct (is_enter key); [discriminate|]. now intros [= <-].
Qed.

(** With the cursor in range and the chosen list duplicate-free, no key
    makes the loop body raise. *)
Lemma multi_step_no_fail (key : Z) (st : Multi.state) (e : exn) :
  0 <= Multi.current st < n ->
  Multi.step options key st <> Fail e.
Proof.
  intros Hc. unfold Multi.step.
  destruct ((key =? KEY_UP) && (Multi.current st >? 0)); [discriminate|].
  destruct ((key =? KEY_DOWN)
            && (Multi.current st <? Z.of_nat (length options) - 1));
    [discriminate|].
  destruct (key =? KEY_SPACE).
  - destruct (py_index_some_in_range options (Multi.current st) Hc)
      as [opt ->].
    destruct (str_in opt (Multi.selected st)) eqn:Es; [|discriminate].
    apply str_in_true, py_remove_elem in Es as [r ->]. discriminate.
  - destruct (is_enter key); discriminate.
Qed.

Lemma multi_loop_chosen_ok (keys : list Z) (st : Multi.state) :
  chosen_ok options st ->
  match Multi.loop options keys st with
  | Waiting st' => chosen_ok options st'
  | Confirmed st' _ => chosen_ok options st'
  | Crashed _ => True
  end.
Proof.
  revert st. induction keys as [|key keys IH]; intros st Hst; simpl.
  - exact Hst.
  - destruct (Multi.step options key st) as [st'| |e] eqn:E.
    + apply IH. eapply multi_step_chosen_ok; eauto.
    + exact Hst.
    + exact I.
Qed.

Lemma multi_loop_range (keys : list Z) (st : Multi.state) :
  0 <= Multi.current st < n ->
  match Multi.loop options keys st with
  | Waiting st' => 0 <= Multi.current st' < n
  | Confirmed st' _ => 0 <= Multi.current st' < n
  | Crashed _ => False
  end.
Proof.
  revert st. induction keys as [|key keys IH]; intros st Hst; simpl.
  - exact Hst.
  - destruct (Multi.step options key st) as [st'| |e] eqn:E.
    + apply IH. eapply multi_step_range; eauto.
    + exact Hst.
    + now apply multi_step_no_fail in E.
Qed.

End MultiSelect.

Lemma init_chosen_ok (options : list string) : chosen_ok options Multi.init.
Proof. split; [apply NoDup_nil_2 | intros x Hx; now apply elem_of_nil in Hx]. Qed.

Lemma nonempty_range (options : list string) :
  options <> [] -> 0 <= 0 < Z.of_nat (length options).
Proof. destruct options; [congruence | simpl; lia]. Qed.

(** C8: for a non-empty list of options the cursor stays within
    [0 <= cursor < len(options)] after every key of every input sequence, in
    the single-select loop and in the ordered multi-select loop; up on the
    first option and down on the last leave the cursor where it is. *)
Theorem cursor_in_range (options : list string) (keys : list Z) :
  options <> [] ->
  let n := Z.of_nat (length options) in
  (forall c, Single.loop options keys 0 = Waiting c -> 0 <= c < n)
  /\ (forall c rest,
        Single.loop options keys 0 = Confirmed c rest -> 0 <= c < n)
  /\ (forall st, Multi.loop options keys Multi.init = Waiting st ->
        0 <= Multi.current st < n)
  /\ (forall st rest,
        Multi.loop options keys Multi.init = Confirmed st rest ->
        0 <= Multi.current st < n)
  /\ Single.step options KEY_UP 0 = Continue 0
  /\ Single.step options KEY_DOWN (n - 1) = Continue (n - 1)
  /\ (forall chosen,
        Multi.step options KEY_UP {| Multi.current := 0;
                                     Multi.selected := chosen |}
        = Continue {| Multi.current := 0; Multi.selected := chosen |})
  /\ (forall chosen,
        Multi.step options KEY_DOWN {| Multi.current := n - 1;
                                       Multi.selected := chosen |}
        = Continue {| Multi.current := n - 1; Multi.selected := chosen |}).
Proof.
  intros Hne n. pose proof (nonempty_range options Hne) as H0.
  pose proof (single_loop_range options keys 0 H0) as HS.
  pose proof (multi_loop_range options keys Multi.init H0) as HM.
  assert (Hlt : (n - 1 <? n - 1) = false) by apply Z.ltb_irrefl.
  repeat split.
  - rewrite H in HS. apply HS.
  - rewrite H in HS. apply HS.
  - rewrite H in HS. apply HS.
  - rewrite H in HS. apply HS.
  - rewrite H in HM. apply HM.
  - rewrite H in HM. apply HM.
  - rewrite H in HM. apply HM.
  - rewrite H in HM. apply HM.
  - unfold Single.step. fold n. now rewrite Hlt.
  - intros chosen. unfold Multi.step. simpl. fold n. now rewrite Hlt.
Qed.

Lemma cursor_in_range_witness :
  ["debian-13"; "ubuntu-2204"] <> []
  /\ Single.step ["debian-13"; "ubuntu-2204"] KEY_DOWN 1 = Continue 1
  /\ Single.step ["debian-13"; "ubuntu-2204"] KEY_UP 0 = Continue 0.
Proof.
  assert (Hne : ["debian-13"; "ubuntu-2204"] <> []) by discriminate.
  pose proof (cursor_in_range ["debian-13"; "ubuntu-2204"]
                [258; 258; 259; 10] Hne) as H.
  split; [exact Hne|].
  split; [exact (proj1 (proj2 (proj2 (proj2 (proj2 (proj2 H)))))) |].
  exact (proj1 (proj2 (proj2 (proj2 (proj2 H))))).
Defined.

(** C9: [tui_single_select] has a value only for a non-empty list of
    options. Once Enter is pressed it returns the option under the cursor,
    which exists exactly when [options] is not empty; on an empty list the
    final [options[selected]] raises [IndexError]. *)
Theorem single_select_defined (prompt : string) (options : list string)
    (keys : list Z) :
  existsb is_enter keys = true ->
  (options = [] ->
     Single.tui_single_select prompt options keys = Raised IndexError)
  /\ (options <> [] ->
        exists c rest opt,
          Single.loop options keys 0 = Confirmed c rest
          /\ 0 <= c < Z.of_nat (length options)
          /\ options !! Z.to_nat c = Some opt
          /\ Single.tui_single_select prompt options keys = Returned opt rest)
  /\ ((exists opt rest,
         Single.tui_single_select prompt options keys = Returned opt rest)
      <-> (0 < length options)%nat).
Proof.
  intros Henter.
  destruct (single_loop_confirms options keys 0 Henter) as (c & rest & Hloop).
  assert (Hempty : options = [] ->
            Single.tui_single_select prompt options keys = Raised IndexError).
  { intros ->. unfold Single.tui_single_select. rewrite Hloop.
    now rewrite py_index_nil. }
  assert (Hfull : options <> [] ->
            exists c rest opt,
              Single.loop options keys 0 = Confirmed c rest
              /\ 0 <= c < Z.of_nat (length options)
              /\ options !! Z.to_nat c = Some opt
              /\ Single.tui_single_select prompt options keys
                 = Returned opt rest).
  { intros Hne.
    pose proof (single_loop_range options keys 0 (nonempty_range _ Hne)) as Hr.
    rewrite Hloop in Hr.
    destruct (py_index_some_in_range options c Hr) as [opt Hopt].
    exists c, rest, opt. split; [exact Hloop|]. split; [exact Hr|].
    split; [now rewrite <- py_index_in_range|].
    unfold Single.tui_single_select. now rewrite Hloop, Hopt. }
  split; [exact Hempty|]. split; [exact Hfull|]. split.
  - intros (opt & rest' & Hret). destruct options as [|o os].
    + rewrite Hempty in Hret by reflexivity. discriminate.
    + simpl. lia.
  - intros Hlen. destruct Hfull as (c' & rest' & opt & _ & _ & _ & Hret).
    + intros ->. simpl in Hlen. lia.
    + eauto.
Qed.

Lemma single_select_defined_witness :
  existsb is_enter [258; 10] = true
  /\ exists c rest opt,
       Single.loop ["debian-13"; "ubuntu-2204"] [258; 10] 0 = Confirmed c rest
       /\ 0 <= c < Z.of_nat (length ["debian-13"; "ubuntu-2204"])
       /\ ["debian-13"; "ubuntu-2204"] !! Z.to_nat c = Some opt
       /\ Single.tui_single_select "Select target OS:"
            ["debian-13"; "ubuntu-2204"] [258; 10] = Returned opt rest.
Proof.
  split; [reflexivity|].
  apply (single_select_defined "Select target OS:"
           ["debian-13"; "ubuntu-2204"] [258; 10]);
    [reflexivity | discriminate].
Defined.

(** C2: after every sequence of keys fed to the ordered multi-select, the
    chosen list holds no option twice and only presented options; toggling
    off the chosen option under the cursor and toggling it on again leaves
    the other chosen options in their order and puts that option at the
    end. Selecting A, B, C, then deselecting and reselecting A, returns
    [B; C; A]. *)
Theorem toggle_appends_at_end (options : list string) (keys : list Z)
    (st : Multi.state) :
  (Multi.loop options keys Multi.init = Waiting st
   \/ exists rest, Multi.loop options keys Multi.init = Confirmed st rest) ->
  NoDup (Multi.selected st)
  /\ (forall x, x ∈ Multi.selected st -> x ∈ options)
  /\ (forall opt,
        py_index options (Multi.current st) = Some opt ->
        opt ∈ Multi.selected st ->
        exists off,
          Multi.step options KEY_SPACE st = Continue off
          /\ (opt ∉ Multi.selected off)
          /\ Multi.step options KEY_SPACE off
             = Continue {| Multi.current := Multi.current st;
                           Multi.selected :=
                             filter (.≠ opt) (Multi.selected st) ++ [opt] |})
  /\ Multi.tui_ordered_multi_select ["A"; "B"; "C"]
       [32; 258; 32; 258; 32; 259; 259; 32; 32; 10]
     = Returned ["B"; "C"; "A"] [].
Proof.
  intros Hreach.
  pose proof (multi_loop_chosen_ok options keys Multi.init
                (init_chosen_ok options)) as Hok.
  assert (Hst : chosen_ok options st).
  { destruct Hreach as [H | [rest H]]; now rewrite H in Hok. }
  destruct Hst as [Hnd Hin].
  split; [exact Hnd|]. split; [exact Hin|]. split; [|reflexivity].
  intros opt Hopt Hsel.
  destruct (py_remove_elem opt _ Hsel) as [r Hr].
  destruct (py_remove_some opt _ r Hr) as (_ & _ & Hr').
  destruct (Hr' Hnd) as (_ & Hnot & Hfilter).
  assert (Hstep : forall chosen,
            Multi.step options KEY_SPACE
              {| Multi.current := Multi.current st; Multi.selected := chosen |}
            = match py_index options (Multi.current st) with
              | None => Fail IndexError
              | Some opt =>
                  if str_in opt chosen then
                    match py_remove opt chosen with
                    | Some l => Continue {| Multi.current := Multi.current st;
                                            Multi.selected := l |}
                    | None => Fail ValueError
                    end
                  else Continue {| Multi.current := Multi.current st;
                                   Multi.selected := chosen ++ [opt] |}
              end).
  { intros chosen. unfold Multi.step. simpl.
    destruct (Multi.current st >? 0);
      destruct (Multi.current st <? Z.of_nat (length options) - 1);
      reflexivity. }
  exists {| Multi.current := Multi.current st; Multi.selected := r |}.
  split; [|split].
  - destruct st as [cur chosen]. simpl in *.
    rewrite Hstep, Hopt.
    apply str_in_true in Hsel. now rewrite Hsel, Hr.
  - exact Hnot.
  - rewrite Hstep, Hopt.
    apply str_in_false in Hnot. rewrite Hnot. now rewrite Hfilter.
Qed.

Lemma toggle_appends_at_end_witness :
  Multi.loop ["A"; "B"; "C"] [32; 258; 32; 258; 32; 259; 259] Multi.init
    = Waiting {| Multi.current := 0; Multi.selected := ["A"; "B"; "C"] |}
  /\ NoDup ["A"; "B"; "C"].
Proof.
  split; [reflexivity|].
  exact (proj1 (toggle_appends_at_end ["A"; "B"; "C"]
                  [32; 258; 32; 258; 32; 259; 259]
                  {| Multi.current := 0; Multi.selected := ["A"; "B"; "C"] |}
                  (or_introl eq_refl))).
Defined.

(** ** The two halves of [main] *)

Lemma regular_non_anchor_pure (d : string) (l : list string) (s : proc) :
  exists r, regular_non_anchor d l s = (inl r, s).
Proof.
  induction l as [|f l [r IH]]; simpl.
  - now exists [].
  - unfold bind at 1. unfold isfile at 1.
    unfold bind at 1. rewrite IH. unfold ret. eauto.
Qed.

Lemma main_phases (timestamp : string) (s : proc) :
  main timestamp s
  = (let* x := front in
     back timestamp (fst (fst x)) (snd (fst x)) (snd x)) s.
Proof.
  unfold main, front, back, bind, tui_single_select, of_outcome.
  destruct (Single.tui_single_select _ _ (keys s)) as [os_tag rest|e|];
    try reflexivity.
  unfold lookup_url.
  destruct (dict_get BASE_IMAGE_URLS os_tag) as [base_url|]; try reflexivity.
  unfold ret, getcwd, isfile, sys_exit, stop_with. fold (script_dir_of os_tag).
  destruct (FS.isfile _ _); try reflexivity.
  destruct (FS.isfile _ _); try reflexivity.
  unfold listdir.
  destruct (FS.listdir _ _) as [e|entries]; try reflexivity.
  destruct (regular_non_anchor_pure (script_dir_of os_tag) entries
              (set_keys rest s)) as [candidates ->].
  destruct (sorted candidates) as [|c cs]; [reflexivity|].
  unfold tui_ordered_multi_select, of_outcome.
  destruct (Multi.tui_ordered_multi_select (c :: cs) (keys (set_keys rest s)))
    as [middle rest'|e|]; reflexivity.
Qed.

Lemma single_select_returns_option (prompt : string) (options : list string)
    (ks rest : list Z) (opt : string) :
  Single.tui_single_select prompt options ks = Returned opt rest ->
  opt ∈ options.
Proof.
  unfold Single.tui_single_select.
  destruct (Single.loop options ks 0) as [c|c rest'|e]; try discriminate.
  destruct (py_index options c) as [o|] eqn:E; [|discriminate].
  intros [= <- _]. eapply py_index_elem_of; eauto.
Qed.

Lemma known_os_has_url (os_tag : string) :
  os_tag ∈ dict_keys BASE_IMAGE_URLS ->
  exists url, dict_get BASE_IMAGE_URLS os_tag = Some url.
Proof.
  unfold dict_keys. simpl. intros H.
  apply elem_of_cons in H as [-> | H]; [eauto|].
  apply elem_of_cons in H as [-> | H]; [eauto|].
  now apply elem_of_nil in H.
Qed.

Ltac front_open :=
  unfold front, bind, tui_single_select, of_outcome, lookup_url, ret,
    isfile, listdir, sys_exit, stop_with.

Ltac norm_state rest s :=
  cbv beta iota;
  change (fs (set_keys rest s)) with (fs s);
  change (cwd (set_keys rest s)) with (cwd s).

(** The first half only consumes keys. *)
Lemma front_frame (s s' : proc) r :
  front s = (r, s') ->
  cwd s' = cwd s /\ fs s' = fs s /\ calls s' = calls s.
Proof.
  front_open.
  destruct (Single.tui_single_select _ _ (keys s)) as [os_tag rest|e|];
    try (intros [= <- <-]; now repeat split).
  destruct (dict_get BASE_IMAGE_URLS os_tag) as [base_url|];
    try (intros [= <- <-]; now repeat split).
  destruct (FS.isfile _ _); try (intros [= <- <-]; now repeat split).
  destruct (FS.isfile _ _); try (intros [= <- <-]; now repeat split).
  destruct (FS.listdir _ _) as [e|entries];
    try (intros [= <- <-]; now repeat split).
  destruct (regular_non_anchor_pure (script_dir_of os_tag) entries
              (set_keys rest s)) as [candidates ->].
  destruct (sorted candidates) as [|c cs];
    try (intros [= <- <-]; now repeat split).
  unfold tui_ordered_multi_select, of_outcome.
  destruct (Multi.tui_ordered_multi_select (c :: cs) _)
    as [middle rest'|e|]; intros [= <- <-]; now repeat split.
Qed.

(** What a successful first half has established. *)
Lemma front_inl (s s' : proc) (os_tag base_url : string)
    (middle : list string) :
  front s = (inl (os_tag, base_url, middle), s') ->
  (exists rest,
     Single.tui_single_select "Select target OS:"
       (dict_keys BASE_IMAGE_URLS) (keys s) = Returned os_tag rest)
  /\ dict_get BASE_IMAGE_URLS os_tag = Some base_url
  /\ FS.isfile (fs s)
       (resolve (cwd s) (path_join (script_dir_of os_tag) "base")) = true
  /\ FS.isfile (fs s)
       (resolve (cwd s) (path_join (script_dir_of os_tag) "clean")) = true.
Proof.
  front_open.
  destruct (Single.tui_single_select _ _ (keys s)) as [os rest|e|];
    try discriminate.
  destruct (dict_get BASE_IMAGE_URLS os) as [url|] eqn:Eurl; try discriminate.
  norm_state rest s.
  destruct (FS.isfile (fs s)
              (resolve (cwd s) (path_join (script_dir_of os) "base")))
    eqn:Eb; try discriminate.
  norm_state rest s.
  destruct (FS.isfile (fs s)
              (resolve (cwd s) (path_join (script_dir_of os) "clean")))
    eqn:Ec; try discriminate.
  norm_state rest s.
  destruct (FS.listdir (fs s) _) as [e|entries]; try discriminate.
  destruct (regular_non_anchor_pure (script_dir_of os) entries
              (set_keys rest s)) as [candidates ->].
  destruct (sorted candidates) as [|c cs].
  - intros [= <- <- <- <-]. eauto.
  - unfold tui_ordered_multi_select, of_outcome.
    destruct (Multi.tui_ordered_multi_select (c :: cs) _)
      as [mid rest'|e|]; try discriminate.
    intros [= <- <- <- <-]. eauto.
Qed.

Lemma front_missing (s : proc) (os_tag missing : string) (rest : list Z) :
  Single.tui_single_select "Select target OS:"
    (dict_keys BASE_IMAGE_URLS) (keys s) = Returned os_tag rest ->
  missing_anchor (fs s) (cwd s) os_tag = Some missing ->
  front s = (inr (SysExit ("Missing script: " +:+ missing)), set_keys rest s).
Proof.
  intros Hsel Hmiss. front_open. rewrite Hsel.
  destruct (known_os_has_url os_tag) as [url ->].
  { eapply single_select_returns_option; eauto. }
  unfold missing_anchor in Hmiss. norm_state rest s.
  destruct (FS.isfile (fs s)
              (resolve (cwd s) (path_join (script_dir_of os_tag) "base"))).
  - norm_state rest s.
    destruct (FS.isfile (fs s)
                (resolve (cwd s) (path_join (script_dir_of os_tag) "clean")));
      [discriminate|].
    now injection Hmiss as <-.
  - now injection Hmiss as <-.
Qed.

Lemma foldr_run_cmds (cmds : list (list string)) (s : proc) :
  foldr (fun cmd k => do* call_run_cmd cmd in k) (ret tt) cmds s
  = (inl tt, {| cwd := cwd s; fs := fs s; keys := keys s;
                calls := calls s ++ map RunCmd cmds |}).
Proof.
  revert s. induction cmds as [|cmd cmds IH]; intros s; simpl.
  - unfold ret. rewrite app_nil_r. now destruct s.
  - unfold bind, call_run_cmd. rewrite IH. simpl.
    now rewrite <- app_assoc.
Qed.

(** The second half, spelled out: it stops at the first [os.makedirs] that
    fails and otherwise makes exactly the calls of [plan]. *)
Lemma back_spec (timestamp os_tag base_url : string)
    (middle : list string) (s : proc) :
  let here := cwd s in
  back timestamp os_tag base_url middle s =
  match FS.makedirs (fs s) (resolve here (DOWNLOAD_DIR here)) with
  | inl e => (inr (Uncaught e), log (Makedirs (DOWNLOAD_DIR here)) s)
  | inr f1 =>
    match FS.makedirs f1 (resolve here (OUTPUT_DIR here)) with
    | inl e =>
        (inr (Uncaught e),
         {| cwd := here; fs := f1; keys := keys s;
            calls := calls s ++ [Makedirs (DOWNLOAD_DIR here);
                                 Makedirs (OUTPUT_DIR here)] |})
    | inr f2 =>
      match FS.makedirs f2 (resolve here (workdir_of timestamp)) with
      | inl e =>
          (inr (Uncaught e),
           {| cwd := here; fs := f2; keys := keys s;
              calls := calls s ++ [Makedirs (DOWNLOAD_DIR here);
                                   Makedirs (OUTPUT_DIR here);
                                   Makedirs (workdir_of timestamp)] |})
      | inr f3 =>
          (inl (final_dest_of here os_tag middle timestamp),
           {| cwd := here; fs := f3; keys := keys s;
              calls := calls s
                ++ plan here timestamp os_tag base_url middle
                     (FS.exists_ f3
                        (resolve here (base_path_of here base_url))) |})
      end
    end
  end.
Proof.
  intros here. unfold back, bind at 1, getcwd. fold here.
  unfold bind at 1, makedirs at 1. fold here.
  destruct (FS.makedirs (fs s) _) as [e|f1]; [reflexivity|].
  unfold bind at 1, makedirs at 1. simpl cwd. simpl fs. fold here.
  destruct (FS.makedirs f1 _) as [e|f2].
  { unfold log, set_fs. simpl. now rewrite <- app_assoc. }
  unfold bind at 1, makedirs at 1. simpl cwd. simpl fs. fold here.
  destruct (FS.makedirs f2 _) as [e|f3].
  { unfold log, set_fs. simpl. now rewrite <- !app_assoc. }
  unfold bind at 1, path_exists at 1. simpl cwd. simpl fs. fold here.
  set (cached := FS.exists_ f3 _).
  unfold bind at 1.
  assert (Hacq :
    (if negb cached then call_run_cmd (acquire_cmd here base_url)
     else print ("Using existing image: " +:+ base_path_of here base_url))
      (log (Makedirs (workdir_of timestamp))
         (set_fs f3 (log (Makedirs (OUTPUT_DIR here))
            (set_fs f2 (log (Makedirs (DOWNLOAD_DIR here)) (set_fs f1 s))))))
    = (inl tt,
       {| cwd := here; fs := f3; keys := keys s;
          calls := calls s
            ++ [Makedirs (DOWNLOAD_DIR here); Makedirs (OUTPUT_DIR here);
                Makedirs (workdir_of timestamp)]
            ++ [if cached
                then Print ("Using existing image: "
                            +:+ base_path_of here base_url)
                else RunCmd (acquire_cmd here base_url)] |})).
  { destruct cached; unfold call_run_cmd, print, log, set_fs; simpl;
      now rewrite <- !app_assoc. }
  rewrite Hacq. unfold bind at 1. rewrite foldr_run_cmds.
  unfold bind, print, ret, log, plan. simpl.
  now rewrite <- !app_assoc.
Qed.

(** ** Whole runs *)

(** A run that reaches its last line: the first half succeeded, the three
    directories could be created, and the calls are those of [plan]. *)
Lemma main_done (timestamp : string) (s s' : proc) (d : string) :
  main timestamp s = (inl d, s') ->
  let here := cwd s in
  exists os_tag base_url middle s1 f1 f2,
    front s = (inl (os_tag, base_url, middle), s1)
    /\ FS.makedirs (fs s) (resolve here (DOWNLOAD_DIR here)) = inr f1
    /\ FS.makedirs f1 (resolve here (OUTPUT_DIR here)) = inr f2
    /\ FS.makedirs f2 (resolve here (workdir_of timestamp)) = inr (fs s')
    /\ calls s'
       = calls s ++ plan here timestamp os_tag base_url middle
                      (FS.exists_ (fs s')
                         (resolve here (base_path_of here base_url)))
    /\ d = final_dest_of here os_tag middle timestamp.
Proof.
  intros Hmain here. rewrite main_phases in Hmain. unfold bind in Hmain.
  destruct (front s) as [[[[os_tag base_url] middle]|e] s1] eqn:Ef;
    [|discriminate].
  destruct (front_frame _ _ _ Ef) as (Hcwd & Hfs & Hcalls).
  simpl fst in Hmain. simpl snd in Hmain.
  rewrite back_spec in Hmain. cbv zeta in Hmain.
  rewrite Hcwd, Hfs, Hcalls in Hmain. fold here in Hmain.
  destruct (FS.makedirs (fs s) _) as [e|f1] eqn:E1; [discriminate|].
  destruct (FS.makedirs f1 _) as [e|f2] eqn:E2; [discriminate|].
  destruct (FS.makedirs f2 _) as [e|f3] eqn:E3; [discriminate|].
  injection Hmain as <- <-. simpl.
  exists os_tag, base_url, middle, s1, f1, f2. now repeat split.
Qed.

Lemma main_missing (timestamp : string) (s : proc) (os_tag missing : string)
    (rest : list Z) :
  Single.tui_single_select "Select target OS:"
    (dict_keys BASE_IMAGE_URLS) (keys s) = Returned os_tag rest ->
  missing_anchor (fs s) (cwd s) os_tag = Some missing ->
  main timestamp s
  = (inr (SysExit ("Missing script: " +:+ missing)), set_keys rest s).
Proof.
  intros Hsel Hmiss. rewrite main_phases. unfold bind.
  now rewrite (front_missing s os_tag missing rest Hsel Hmiss).
Qed.

Lemma build_done (argv : list string) (timestamp cwd0 : string)
    (fs0 : gmap string node) (keys0 : list Z) (d : string) :
  run_end (build argv timestamp cwd0 fs0 keys0) = Done d ->
  let r := build argv timestamp cwd0 fs0 keys0 in
  exists os_tag base_url middle s1 f1 f2,
    front (start cwd0 fs0 keys0) = (inl (os_tag, base_url, middle), s1)
    /\ FS.makedirs fs0 (resolve cwd0 (DOWNLOAD_DIR cwd0)) = inr f1
    /\ FS.makedirs f1 (resolve cwd0 (OUTPUT_DIR cwd0)) = inr f2
    /\ FS.makedirs f2 (resolve cwd0 (workdir_of timestamp)) = inr (run_fs r)
    /\ run_calls r
       = plan cwd0 timestamp os_tag base_url middle
           (FS.exists_ (run_fs r)
              (resolve cwd0 (base_path_of cwd0 base_url)))
    /\ d = final_dest_of cwd0 os_tag middle timestamp.
Proof.
  unfold build.
  destruct (main timestamp (start cwd0 fs0 keys0)) as [[d'|e] s'] eqn:Em;
    simpl.
  - intros [= ->]. apply main_done in Em. exact Em.
  - discriminate.
Qed.

(** ** Missing anchor scripts *)

(** C4: when the base script or the clean script of the selected OS is not
    a regular file, the run ends through [sys.exit] with status 1 and a
    message naming the missing file, having made no call to [os.makedirs]
    or [run_cmd]: the filesystem is as it was, with no workspace entry. *)
Theorem missing_anchor_aborts (argv : list string) (timestamp cwd0 : string)
    (fs0 : gmap string node) (keys0 : list Z) (os_tag : string)
    (rest : list Z) :
  Single.tui_single_select "Select target OS:"
    (dict_keys BASE_IMAGE_URLS) keys0 = Returned os_tag rest ->
  FS.isfile fs0 (resolve cwd0 (path_join (script_dir_of os_tag) "base"))
    = false
  \/ FS.isfile fs0 (resolve cwd0 (path_join (script_dir_of os_tag) "clean"))
    = false ->
  let r := build argv timestamp cwd0 fs0 keys0 in
  exists missing,
    (missing = path_join (script_dir_of os_tag) "base"
     \/ missing = path_join (script_dir_of os_tag) "clean")
    /\ FS.isfile fs0 (resolve cwd0 missing) = false
    /\ run_end r = Aborted (SysExit ("Missing script: " +:+ missing))
    /\ exit_status (run_end r) = Some 1
    /\ run_calls r = []
    /\ run_effects r = []
    /\ run_fs r = fs0
    /\ run_fs r !! resolve cwd0 (workdir_of timestamp)
       = fs0 !! resolve cwd0 (workdir_of timestamp).
Proof.
  intros Hsel Hmiss r.
  assert (Hm : exists missing,
            missing_anchor fs0 cwd0 os_tag = Some missing
            /\ (missing = path_join (script_dir_of os_tag) "base"
                \/ missing = path_join (script_dir_of os_tag) "clean")
            /\ FS.isfile fs0 (resolve cwd0 missing) = false).
  { unfold missing_anchor.
    destruct (FS.isfile fs0
                (resolve cwd0 (path_join (script_dir_of os_tag) "base")))
      eqn:Eb.
    - destruct Hmiss as [Hb | Hc]; [discriminate|]. rewrite Hc. eauto.
    - eauto. }
  destruct Hm as (missing & Hma & Hwhich & Hnot).
  exists missing. split; [exact Hwhich|]. split; [exact Hnot|].
  subst r. unfold build.
  rewrite (main_missing timestamp (start cwd0 fs0 keys0) os_tag missing rest
             Hsel Hma).
  simpl. now repeat split.
Qed.

Lemma missing_anchor_aborts_witness :
  Single.tui_single_select "Select target OS:"
    (dict_keys BASE_IMAGE_URLS) [258; 10] = Returned "ubuntu-2204" []
  /\ exists missing,
       (missing = path_join (script_dir_of "ubuntu-2204") "base"
        \/ missing = path_join (script_dir_of "ubuntu-2204") "clean")
       /\ FS.isfile sample_fs (resolve "/home/u" missing) = false
       /\ run_end (build ["build.py"] "20240101_000000" "/home/u" sample_fs
                     [258; 10])
          = Aborted (SysExit ("Missing script: " +:+ missing))
       /\ exit_status (run_end (build ["build.py"] "20240101_000000" "/home/u"
                                  sample_fs [258; 10])) = Some 1
       /\ run_calls (build ["build.py"] "20240101_000000" "/home/u" sample_fs
                       [258; 10]) = []
       /\ run_effects (build ["build.py"] "20240101_000000" "/home/u"
                         sample_fs [258; 10]) = []
       /\ run_fs (build ["build.py"] "20240101_000000" "/home/u" sample_fs
                    [258; 10]) = sample_fs
       /\ run_fs (build ["build.py"] "20240101_000000" "/home/u" sample_fs
                    [258; 10])
            !! resolve "/home/u" (workdir_of "20240101_000000")
          = sample_fs !! resolve "/home/u" (workdir_of "20240101_000000").
Proof.
  split; [reflexivity|].
  apply (missing_anchor_aborts ["build.py"] "20240101_000000" "/home/u"
           sample_fs [258; 10] "ubuntu-2204" []).
  - reflexivity.
  - right. vm_compute. reflexivity.
Defined.

(** ** Effects of a run *)

Lemma build_effects (argv : list string) (timestamp cwd0 : string)
    (fs0 : gmap string node) (keys0 : list Z) :
  run_effects (build argv timestamp cwd0 fs0 keys0)
  = concat (map (prims (DRY_RUN_of argv))
                (run_calls (build argv timestamp cwd0 fs0 keys0))).
Proof.
  unfold build. now destruct (main timestamp (start cwd0 fs0 keys0)) as [? ?].
Qed.

Lemma prims_dry_run_cmd (cmd : list string) :
  prims true (RunCmd cmd) = [dry_report cmd].
Proof.
  unfold prims, run_cmd, dry_report. simpl.
  now rewrite str_join_space_joined.
Qed.

Lemma prims_dry_no_system (c : call) (command : string) :
  Eff (OsSystem command) ∉ prims true c.
Proof.
  destruct c as [p|cmd|line]; simpl; intros H.
  - apply list_elem_of_singleton in H. discriminate.
  - apply list_elem_of_singleton in H. discriminate.
  - apply list_elem_of_singleton in H. discriminate.
Qed.

Lemma effects_dry_no_system (l : list call) (command : string) :
  Eff (OsSystem command) ∉ concat (map (prims true) l).
Proof.
  induction l as [|c l IH]; simpl.
  - apply not_elem_of_nil.
  - intros H. apply elem_of_app in H as [H | H].
    + now apply prims_dry_no_system in H.
    + contradiction.
Qed.

Lemma effects_of_call (dry : bool) (l : list call) (c : call) (p : prim) :
  c ∈ l -> p ∈ prims dry c -> p ∈ concat (map (prims dry) l).
Proof.
  intros Hc Hp. apply list_elem_of_In, in_concat.
  exists (prims dry c). split.
  - apply in_map. now apply list_elem_of_In.
  - now apply list_elem_of_In.
Qed.

Lemma effects_dry_commands (cmds : list (list string)) :
  concat (map (prims true) (map RunCmd cmds)) = map dry_report cmds.
Proof.
  induction cmds as [|cmd cmds IH]; [reflexivity|].
  cbn [map concat]. rewrite prims_dry_run_cmd, IH. reflexivity.
Qed.

Lemma effects_dry_plan (here timestamp os_tag base_url : string)
    (middle : list string) (cached : bool) :
  concat (map (prims true)
            (plan here timestamp os_tag base_url middle cached))
  = [ Mkdir (DOWNLOAD_DIR here); Mkdir (OUTPUT_DIR here);
      Mkdir (workdir_of timestamp) ]
    ++ [ if cached
         then Eff (Stdout ("Using existing image: "
                           +:+ base_path_of here base_url))
         else dry_report (acquire_cmd here base_url) ]
    ++ map dry_report (commands here timestamp os_tag base_url middle)
    ++ [ Eff (Stdout (String (ascii_of_nat 10) "" +:+ "Final image ready at: "
                      +:+ final_dest_of here os_tag middle timestamp)) ].
Proof.
  unfold plan. rewrite !map_app, !concat_app, effects_dry_commands.
  destruct cached.
  - reflexivity.
  - cbn [map concat app]. rewrite prims_dry_run_cmd. reflexivity.
Qed.

Lemma regular_non_anchor_is_filter (d : string) (l : list string) (s : proc) :
  regular_non_anchor d l s = (inl (candidates_of (fs s) (cwd s) d l), s).
Proof.
  induction l as [|f l IH]; [reflexivity|].
  cbn [regular_non_anchor]. unfold bind at 1. unfold isfile at 1.
  unfold bind at 1. rewrite IH. unfold ret, candidates_of.
  cbn [List.filter]. reflexivity.
Qed.

(** What a successful first half chose. *)
Lemma front_selected (s s' : proc) (os_tag base_url : string)
    (middle : list string) :
  front s = (inl (os_tag, base_url, middle), s') ->
  selected_by (cwd s) (fs s) (keys s) os_tag middle
  /\ dict_get BASE_IMAGE_URLS os_tag = Some base_url.
Proof.
  unfold selected_by. front_open.
  destruct (Single.tui_single_select _ _ (keys s)) as [os rest|e|] eqn:Esel;
    try discriminate.
  destruct (dict_get BASE_IMAGE_URLS os) as [url|] eqn:Eurl;
    try discriminate.
  norm_state rest s.
  destruct (FS.isfile (fs s)
              (resolve (cwd s) (path_join (script_dir_of os) "base")));
    try discriminate.
  norm_state rest s.
  destruct (FS.isfile (fs s)
              (resolve (cwd s) (path_join (script_dir_of os) "clean")));
    try discriminate.
  norm_state rest s.
  destruct (FS.listdir (fs s) _) as [e|entries] eqn:El; try discriminate.
  rewrite regular_non_anchor_is_filter.
  change (fs (set_keys rest s)) with (fs s).
  change (cwd (set_keys rest s)) with (cwd s).
  destruct (sorted (candidates_of (fs s) (cwd s) (script_dir_of os) entries))
    as [|c cs] eqn:Es.
  - intros [= <- <- <- <-]. split; [|exact Eurl].
    exists rest, entries. split; [reflexivity|]. split; [exact El|].
    now rewrite Es.
  - unfold tui_ordered_multi_select, of_outcome.
    change (keys (set_keys rest s)) with rest.
    destruct (Multi.tui_ordered_multi_select (c :: cs) rest)
      as [mid rest'|e|] eqn:Em; try discriminate.
    intros [= <- <- <- <-]. split; [|exact Eurl].
    exists rest, entries. split; [reflexivity|]. split; [exact El|].
    rewrite Es. eauto.
Qed.

(** ** The filesystem after a run *)

Lemma only_adds_dirs_refl (fa : gmap string node) (dirs : list string) :
  only_adds_dirs fa fa dirs.
Proof. intros q. now left. Qed.

Lemma only_adds_dirs_weaken (fa fb : gmap string node)
    (dirs dirs' : list string) :
  (forall q, q ∈ dirs -> q ∈ dirs') ->
  only_adds_dirs fa fb dirs -> only_adds_dirs fa fb dirs'.
Proof.
  intros Hsub H q. destruct (H q) as [Heq | (Hn & Hd & Hq)]; [now left|].
  right. auto.
Qed.

Lemma only_adds_dirs_trans (fa fb fc : gmap string node)
    (dirs1 dirs2 : list string) :
  only_adds_dirs fa fb dirs1 -> only_adds_dirs fb fc dirs2 ->
  only_adds_dirs fa fc (dirs1 ++ dirs2).
Proof.
  intros H1 H2 q.
  destruct (H1 q) as [E1 | (N1 & D1 & Q1)];
    destruct (H2 q) as [E2 | (N2 & D2 & Q2)].
  - left. congruence.
  - right. split; [congruence|]. split; [exact D2|].
    apply elem_of_app. now right.
  - right. split; [exact N1|]. split; [congruence|].
    apply elem_of_app. now left.
  - congruence.
Qed.

Lemma mkdir_chain_only_adds (fa fb : gmap string node) (chain : list string)
    (leaf : string) :
  FS.mkdir_chain fa chain leaf = inr fb -> only_adds_dirs fa fb chain.
Proof.
  revert fa. induction chain as [|p chain IH]; intros fa; simpl.
  - intros [= ->]. apply only_adds_dirs_refl.
  - destruct (fa !! p) as [[|]|] eqn:Ep; [discriminate| |].
    + intros H. eapply only_adds_dirs_weaken; [|exact (IH _ H)].
      intros q Hq. now right.
    + intros H q. destruct (decide (q = p)) as [-> | Hne].
      * right. split; [exact Ep|]. split; [|left].
        destruct (IH _ H p) as [E | (N & _ & _)].
        -- now rewrite E, lookup_insert_eq.
        -- now rewrite lookup_insert_eq in N.
      * destruct (IH _ H q) as [E | (N & D & Q)].
        -- left. now rewrite E, lookup_insert_ne.
        -- right. rewrite lookup_insert_ne in N by congruence.
           split; [exact N|]. split; [exact D|]. now right.
Qed.

Lemma makedirs_only_adds (fa fb : gmap string node) (p : string) :
  FS.makedirs fa p = inr fb ->
  only_adds_dirs fa fb (FS.parents p ++ [p]).
Proof. apply mkdir_chain_only_adds. Qed.

(** The five ways a run can go, with what it called and what it left. *)
Lemma build_cases (argv : list string) (timestamp cwd0 : string)
    (fs0 : gmap string node) (keys0 : list Z) :
  let r := build argv timestamp cwd0 fs0 keys0 in
  let D := DOWNLOAD_DIR cwd0 in
  let O := OUTPUT_DIR cwd0 in
  let W := workdir_of timestamp in
  (exists a, run_end r = Aborted a /\ run_calls r = [] /\ run_fs r = fs0)
  \/ (exists e, run_end r = Aborted (Uncaught e)
               /\ run_calls r = [Makedirs D] /\ run_fs r = fs0)
  \/ (exists e f1, run_end r = Aborted (Uncaught e)
                  /\ run_calls r = [Makedirs D; Makedirs O]
                  /\ run_fs r = f1
                  /\ FS.makedirs fs0 (resolve cwd0 D) = inr f1)
  \/ (exists e f1 f2, run_end r = Aborted (Uncaught e)
                     /\ run_calls r = [Makedirs D; Makedirs O; Makedirs W]
                     /\ run_fs r = f2
                     /\ FS.makedirs fs0 (resolve cwd0 D) = inr f1
                     /\ FS.makedirs f1 (resolve cwd0 O) = inr f2)
  \/ (exists d os_tag base_url middle f1 f2,
        run_end r = Done d
        /\ selected_by cwd0 fs0 keys0 os_tag middle
        /\ dict_get BASE_IMAGE_URLS os_tag = Some base_url
        /\ d = final_dest_of cwd0 os_tag middle timestamp
        /\ run_calls r
           = plan cwd0 timestamp os_tag base_url middle
               (FS.exists_ (run_fs r)
                  (resolve cwd0 (base_path_of cwd0 base_url)))
        /\ FS.makedirs fs0 (resolve cwd0 D) = inr f1
        /\ FS.makedirs f1 (resolve cwd0 O) = inr f2
        /\ FS.makedirs f2 (resolve cwd0 W) = inr (run_fs r)).
Proof.
  intros r D O W. subst r. unfold build.
  destruct (main timestamp (start cwd0 fs0 keys0)) as [[d|a] s'] eqn:Em;
    cbn [run_end run_calls run_fs].
  - do 4 right. apply main_done in Em.
    destruct Em as (os_tag & base_url & middle & s1 & f1 & f2 & Hfront
                    & H1 & H2 & H3 & Hcalls & Hd).
    destruct (front_selected _ _ _ _ _ Hfront) as [Hsel Hurl].
    exists d, os_tag, base_url, middle, f1, f2.
    split; [reflexivity|]. split; [exact Hsel|]. split; [exact Hurl|].
    split; [exact Hd|]. split; [exact Hcalls|]. now repeat split.
  - rewrite main_phases in Em. unfold bind in Em.
    destruct (front (start cwd0 fs0 keys0))
      as [[[[os_tag base_url] middle]|e] s1] eqn:Ef.
    + destruct (front_frame _ _ _ Ef) as (Hcwd & Hfs & Hcalls).
      simpl fst in Em. simpl snd in Em.
      rewrite back_spec in Em. cbv zeta in Em.
      rewrite Hcwd, Hfs, Hcalls in Em.
      change (cwd (start cwd0 fs0 keys0)) with cwd0 in Em.
      change (fs (start cwd0 fs0 keys0)) with fs0 in Em.
      change (calls (start cwd0 fs0 keys0)) with (@nil call) in Em.
      fold D O W in Em.
      destruct (FS.makedirs fs0 (resolve cwd0 D)) as [e|f1] eqn:E1.
      { right. left. exists e. injection Em as <- <-.
        unfold log. cbn [calls fs]. rewrite Hcalls, Hfs. now repeat split. }
      destruct (FS.makedirs f1 (resolve cwd0 O)) as [e|f2] eqn:E2.
      { do 2 right. left. exists e, f1. injection Em as <- <-.
        now repeat split. }
      destruct (FS.makedirs f2 (resolve cwd0 W)) as [e|f3] eqn:E3;
        [|discriminate].
      do 3 right. left. exists e, f1, f2. injection Em as <- <-.
      now repeat split.
    + left. exists a. destruct (front_frame _ _ _ Ef) as (_ & Hfs & Hcalls).
      injection Em as _ <-. now repeat split.
Qed.

(** Whatever the run, it only added directories of the three chains. *)
Lemma build_only_adds_dirs (argv : list string) (timestamp cwd0 : string)
    (fs0 : gmap string node) (keys0 : list Z) :
  only_adds_dirs fs0 (run_fs (build argv timestamp cwd0 fs0 keys0))
    (created_dirs cwd0 timestamp).
Proof.
  unfold created_dirs.
  destruct (build_cases argv timestamp cwd0 fs0 keys0)
    as [(a & _ & _ & ->) | [(e & _ & _ & ->) | [(e & f1 & _ & _ & -> & H1)
        | [(e & f1 & f2 & _ & _ & -> & H1 & H2)
        | (d & os_tag & base_url & middle & f1 & f2 & _ & _ & _ & _ & _
           & H1 & H2 & H3)]]]].
  - apply only_adds_dirs_refl.
  - apply only_adds_dirs_refl.
  - eapply only_adds_dirs_weaken; [|exact (makedirs_only_adds _ _ _ H1)].
    intros q Hq. apply elem_of_app. now left.
  - eapply only_adds_dirs_weaken;
      [|exact (only_adds_dirs_trans _ _ _ _ _
                 (makedirs_only_adds _ _ _ H1)
                 (makedirs_only_adds _ _ _ H2))].
    intros q Hq. apply elem_of_app in Hq as [Hq | Hq];
      apply elem_of_app; [now left | right].
    apply elem_of_app. now left.
  - exact (only_adds_dirs_trans _ _ _ _ _
             (makedirs_only_adds _ _ _ H1)
             (only_adds_dirs_trans _ _ _ _ _
                (makedirs_only_adds _ _ _ H2)
                (makedirs_only_adds _ _ _ H3))).
Qed.

(** The only [os.makedirs] calls of a run are the three of lines 118-121. *)
Lemma build_makedirs_calls (argv : list string) (timestamp cwd0 : string)
    (fs0 : gmap string node) (keys0 : list Z) (p : string) :
  Makedirs p ∈ run_calls (build argv timestamp cwd0 fs0 keys0) ->
  p = DOWNLOAD_DIR cwd0 \/ p = OUTPUT_DIR cwd0 \/ p = workdir_of timestamp.
Proof.
  destruct (build_cases argv timestamp cwd0 fs0 keys0)
    as [(a & _ & -> & _) | [(e & _ & -> & _) | [(e & f1 & _ & -> & _)
        | [(e & f1 & f2 & _ & -> & _)
        | (d & os_tag & base_url & middle & f1 & f2 & _ & _ & _ & _ & ->
           & _)]]]]; intros H.
  - now apply elem_of_nil in H.
  - apply list_elem_of_singleton in H. injection H as ->. tauto.
  - apply elem_of_cons in H as [H | H]; [injection H as ->; tauto|].
    apply list_elem_of_singleton in H. injection H as ->. tauto.
  - apply elem_of_cons in H as [H | H]; [injection H as ->; tauto|].
    apply elem_of_cons in H as [H | H]; [injection H as ->; tauto|].
    apply list_elem_of_singleton in H. injection H as ->. tauto.
  - unfold plan, commands in H.
    apply elem_of_cons in H as [H | H]; [injection H as ->; tauto|].
    apply elem_of_cons in H as [H | H]; [injection H as ->; tauto|].
    apply elem_of_cons in H as [H | H]; [injection H as ->; tauto|].
    exfalso. destruct (FS.exists_ _ _); cbn [app map] in H;
      repeat (apply elem_of_cons in H as [H | H]; [discriminate|]);
      now apply elem_of_nil in H.
Qed.

(** The claim C3 fails as stated: a complete dry run creates the workspace
    directory (and the download and output directories) and leaves it
    behind. *)
Lemma dry_run_creates_directories :
  let r := build ["build.py"; "--dry-run"] "20240101_000000" "/home/u"
             sample_fs [10; 10] in
  DRY_RUN_of ["build.py"; "--dry-run"] = true
  /\ run_end r = Done "/home/u/output/debian-13-20240101_000000.img"
  /\ sample_fs !! "/dev/shm/build/20240101_000000" = None
  /\ run_fs r !! "/dev/shm/build/20240101_000000" = Some Dir
  /\ run_fs r <> sample_fs
  /\ Mkdir "/dev/shm/build/20240101_000000" ∈ run_effects r.
Proof.
  cbv zeta.
  assert (Hafter : run_fs (build ["build.py"; "--dry-run"] "20240101_000000"
                             "/home/u" sample_fs [10; 10])
                     !! "/dev/shm/build/20240101_000000" = Some Dir)
    by (vm_compute; reflexivity).
  assert (Hbefore : sample_fs !! "/dev/shm/build/20240101_000000" = None)
    by (vm_compute; reflexivity).
  split; [reflexivity|]. split; [vm_compute; reflexivity|].
  split; [exact Hbefore|]. split; [exact Hafter|]. split.
  - intros Heq. rewrite Heq in Hafter. congruence.
  - apply (bool_decide_unpack _). vm_compute. exact I.
Qed.

Lemma mkdir_effect_is_call (dry : bool) (l : list call) (p : string) :
  Mkdir p ∈ concat (map (prims dry) l) -> Makedirs p ∈ l.
Proof.
  intros H. apply list_elem_of_In, in_concat in H as (ps & Hps & Hp).
  apply in_map_iff in Hps as (c & <- & Hc).
  apply list_elem_of_In in Hc. apply list_elem_of_In in Hp.
  destruct c as [p'|cmd|line]; simpl in Hp.
  - apply list_elem_of_singleton in Hp. now injection Hp as ->.
  - unfold run_cmd in Hp. destruct dry; simpl in Hp.
    + apply list_elem_of_singleton in Hp. discriminate.
    + apply elem_of_cons in Hp as [Hp | Hp]; [discriminate|].
      apply list_elem_of_singleton in Hp. discriminate.
  - apply list_elem_of_singleton in Hp. discriminate.
Qed.

(** C3, as amended: with the dry-run flag set, a build run makes no network
    call and no filesystem mutation other than creating, through the three
    [os.makedirs] calls, the download, output and workspace directories
    with their missing ancestors. Nothing is ever handed to the shell: every
    command [main] issues (download, create, resize, customize, compress,
    copy, remove) is formatted and reported instead; no existing entry is
    removed or changed and nothing else is created. *)
Theorem dry_run_invokes_nothing (argv : list string) (timestamp cwd0 : string)
    (fs0 : gmap string node) (keys0 : list Z) :
  DRY_RUN_of argv = true ->
  let r := build argv timestamp cwd0 fs0 keys0 in
  (forall command, Eff (OsSystem command) ∉ run_effects r)
  /\ (forall cmd, RunCmd cmd ∈ run_calls r -> dry_report cmd ∈ run_effects r)
  /\ (forall p, Mkdir p ∈ run_effects r ->
        p = DOWNLOAD_DIR cwd0 \/ p = OUTPUT_DIR cwd0
        \/ p = workdir_of timestamp)
  /\ (forall q,
        run_fs r !! q = fs0 !! q
        \/ (fs0 !! q = None /\ run_fs r !! q = Some Dir
            /\ q ∈ created_dirs cwd0 timestamp))
  /\ (forall d, run_end r = Done d ->
        exists os_tag base_url middle,
          selected_by cwd0 fs0 keys0 os_tag middle
          /\ dict_get BASE_IMAGE_URLS os_tag = Some base_url
          /\ d = final_dest_of cwd0 os_tag middle timestamp
          /\ run_effects r
             = [ Mkdir (DOWNLOAD_DIR cwd0); Mkdir (OUTPUT_DIR cwd0);
                 Mkdir (workdir_of timestamp) ]
               ++ [ if FS.exists_ (run_fs r)
                         (resolve cwd0 (base_path_of cwd0 base_url))
                    then Eff (Stdout ("Using existing image: "
                                      +:+ base_path_of cwd0 base_url))
                    else dry_report (acquire_cmd cwd0 base_url) ]
               ++ map dry_report
                    (commands cwd0 timestamp os_tag base_url middle)
               ++ [ Eff (Stdout (String (ascii_of_nat 10) ""
                                 +:+ "Final image ready at: " +:+ d)) ]).
Proof.
  intros Hdry r. subst r.
  rewrite build_effects, Hdry.
  split; [intros command; apply effects_dry_no_system|].
  split; [|split; [|split]].
  - intros cmd Hcmd. eapply effects_of_call; [exact Hcmd|].
    rewrite prims_dry_run_cmd. apply list_elem_of_singleton. reflexivity.
  - intros p Hp. apply mkdir_effect_is_call in Hp.
    eapply build_makedirs_calls; eauto.
  - apply build_only_adds_dirs.
  - intros d Hd.
    destruct (build_cases argv timestamp cwd0 fs0 keys0)
      as [(a & Ha & _) | [(e & Ha & _) | [(e & f1 & Ha & _)
          | [(e & f1 & f2 & Ha & _)
          | (d' & os_tag & base_url & middle & f1 & f2 & Hd' & Hsel & Hurl
             & Hdest & Hcalls & _)]]]];
      try (rewrite Hd in Ha; discriminate).
    rewrite Hd in Hd'. injection Hd' as <-.
    exists os_tag, base_url, middle.
    split; [exact Hsel|]. split; [exact Hurl|]. split; [exact Hdest|].
    rewrite Hcalls, effects_dry_plan. now rewrite Hdest.
Qed.

Lemma dry_run_invokes_nothing_witness :
  DRY_RUN_of ["build.py"; "--dry-run"] = true
  /\ (forall command,
        Eff (OsSystem command)
        ∉ run_effects (build ["build.py"; "--dry-run"] "20240101_000000"
                         "/home/u" sample_fs [10; 10]))
  /\ forall q,
       run_fs (build ["build.py"; "--dry-run"] "20240101_000000" "/home/u"
                 sample_fs [10; 10]) !! q = sample_fs !! q
       \/ (sample_fs !! q = None
           /\ run_fs (build ["build.py"; "--dry-run"] "20240101_000000"
                        "/home/u" sample_fs [10; 10]) !! q = Some Dir
           /\ q ∈ created_dirs "/home/u" "20240101_000000").
Proof.
  pose proof (dry_run_invokes_nothing ["build.py"; "--dry-run"]
                "20240101_000000" "/home/u" sample_fs [10; 10] eq_refl) as H.
  split; [reflexivity|]. split; [exact (proj1 H)|].
  exact (proj1 (proj2 (proj2 (proj2 H)))).
Defined.

(** ** Build identity *)

(** The claim C5 fails as stated: the workspace directory is not named by
    the build identity; only the timestamp enters its name. *)
Lemma workspace_key_is_timestamp_only :
  let r := build ["build.py"] "20240101_000000" "/home/u" sample_fs
             [10; 258; 32; 10] in
  run_end r = Done "/home/u/output/debian-13-users-20240101_000000.img"
  /\ final_stem "debian-13" ["users"] "20240101_000000"
     = "debian-13-users-20240101_000000"
  /\ (Makedirs (path_join WORKDIR_BASE "debian-13-users-20240101_000000")
      ∉ run_calls r)
  /\ Makedirs (path_join WORKDIR_BASE "20240101_000000") ∈ run_calls r
  /\ run_fs r !! "/dev/shm/build/debian-13-users-20240101_000000" = None
  /\ run_fs r !! "/dev/shm/build/20240101_000000" = Some Dir.
Proof.
  cbv zeta. split; [vm_compute; reflexivity|].
  split; [vm_compute; reflexivity|].
  split; [apply (bool_decide_unpack _); vm_compute; exact I|].
  split; [apply (bool_decide_unpack _); vm_compute; exact I|].
  split; vm_compute; reflexivity.
Qed.

(** C5, as amended: the build identity (the OS tag the run selected, the
    hyphen-joined customization tags it selected, in selection order and
    omitted when there are none, then the timestamp) is the stem of the
    final artifact's file name in the output directory, the target of the
    copy command; the per-run workspace directory is keyed by the timestamp
    alone. *)
Theorem identity_names_artifact (argv : list string) (timestamp cwd0 : string)
    (fs0 : gmap string node) (keys0 : list Z) (d : string) :
  run_end (build argv timestamp cwd0 fs0 keys0) = Done d ->
  let r := build argv timestamp cwd0 fs0 keys0 in
  exists os_tag middle,
    selected_by cwd0 fs0 keys0 os_tag middle
    /\ d = path_join (OUTPUT_DIR cwd0)
             (deriveIdentity os_tag middle timestamp +:+ ".img")
    /\ RunCmd ["cp";
               path_join (path_join WORKDIR_BASE timestamp)
                 (timestamp +:+ "-compressed.img");
               d] ∈ run_calls r
    /\ List.filter is_makedirs (run_calls r)
       = [ Makedirs (DOWNLOAD_DIR cwd0); Makedirs (OUTPUT_DIR cwd0);
           Makedirs (path_join WORKDIR_BASE timestamp) ]
    /\ RunCmd ["rm"; "-rf"; path_join WORKDIR_BASE timestamp] ∈ run_calls r.
Proof.
  intros Hd r.
  destruct (build_done argv timestamp cwd0 fs0 keys0 d Hd)
    as (os_tag & base_url & middle & s1 & f1 & f2 & Hfront & _ & _ & _
        & Hcalls & ->).
  destruct (front_selected _ _ _ _ _ Hfront) as [Hsel _].
  exists os_tag, middle. split; [exact Hsel|]. subst r. rewrite Hcalls.
  destruct (stem_deriveIdentity os_tag middle timestamp) as [_ Himg].
  split; [unfold final_dest_of; now rewrite Himg|].
  unfold plan, commands, workdir_of, final_dest_of.
  destruct (FS.exists_ _ _); cbn [app map]; repeat split;
    try reflexivity; repeat constructor.
Qed.

Lemma identity_names_artifact_witness :
  run_end (build ["build.py"] "20240101_000000" "/home/u" sample_fs
             [10; 258; 32; 10])
    = Done "/home/u/output/debian-13-users-20240101_000000.img"
  /\ exists os_tag middle,
       selected_by "/home/u" sample_fs [10; 258; 32; 10] os_tag middle
       /\ "/home/u/output/debian-13-users-20240101_000000.img"
          = path_join (OUTPUT_DIR "/home/u")
              (deriveIdentity os_tag middle "20240101_000000" +:+ ".img")
       /\ RunCmd ["cp";
                  path_join (path_join WORKDIR_BASE "20240101_000000")
                    ("20240101_000000" +:+ "-compressed.img");
                  "/home/u/output/debian-13-users-20240101_000000.img"]
          ∈ run_calls (build ["build.py"] "20240101_000000" "/home/u"
                         sample_fs [10; 258; 32; 10])
       /\ List.filter is_makedirs
            (run_calls (build ["build.py"] "20240101_000000" "/home/u"
                          sample_fs [10; 258; 32; 10]))
          = [ Makedirs (DOWNLOAD_DIR "/home/u"); Makedirs (OUTPUT_DIR "/home/u");
              Makedirs (path_join WORKDIR_BASE "20240101_000000") ]
       /\ RunCmd ["rm"; "-rf"; path_join WORKDIR_BASE "20240101_000000"]
          ∈ run_calls (build ["build.py"] "20240101_000000" "/home/u"
                         sample_fs [10; 258; 32; 10]).
Proof.
  assert (Hd : run_end (build ["build.py"] "20240101_000000" "/home/u"
                          sample_fs [10; 258; 32; 10])
               = Done "/home/u/output/debian-13-users-20240101_000000.img")
    by (vm_compute; reflexivity).
  split; [exact Hd|].
  exact (identity_names_artifact ["build.py"] "20240101_000000" "/home/u"
           sample_fs [10; 258; 32; 10] _ Hd).
Defined.

(** ** Directory creation leaves other paths alone *)

Lemma mkdir_chain_other (fs0 fs1 : gmap string node) (chain : list string)
    (leaf q : string) :
  FS.mkdir_chain fs0 chain leaf = inr fs1 -> q ∉ chain -> fs1 !! q = fs0 !! q.
Proof.
  revert fs0. induction chain as [|p chain IH]; intros fs0; simpl.
  - now intros [= ->].
  - intros H Hq. apply not_elem_of_cons in Hq as [Hne Hq].
    destruct (fs0 !! p) as [[|]|] eqn:Ep; [discriminate| |].
    + exact (IH _ H Hq).
    + rewrite (IH _ H Hq). now apply lookup_insert_ne.
Qed.

Lemma mkdir_chain_keeps (fs0 fs1 : gmap string node) (chain : list string)
    (leaf q : string) (x : node) :
  FS.mkdir_chain fs0 chain leaf = inr fs1 ->
  fs0 !! q = Some x -> fs1 !! q = Some x.
Proof.
  revert fs0. induction chain as [|p chain IH]; intros fs0; simpl.
  - now intros [= ->].
  - intros H Hq.
    destruct (fs0 !! p) as [[|]|] eqn:Ep; [discriminate| |].
    + exact (IH _ H Hq).
    + apply (IH _ H). rewrite lookup_insert_ne; [exact Hq|].
      intros ->. congruence.
Qed.

Lemma exists_keeps (fs0 fs1 : gmap string node) (p q : string) :
  FS.makedirs fs0 p = inr fs1 ->
  FS.exists_ fs0 q = true -> FS.exists_ fs1 q = true.
Proof.
  unfold FS.makedirs, FS.exists_. intros Hmk Hq.
  apply bool_decide_eq_true in Hq as [x Hx].
  apply bool_decide_eq_true. exists x.
  eapply mkdir_chain_keeps; eauto.
Qed.

Lemma exists_other (fs0 fs1 : gmap string node) (p q : string) :
  FS.makedirs fs0 p = inr fs1 ->
  q ∉ FS.parents p ++ [p] ->
  FS.exists_ fs1 q = FS.exists_ fs0 q.
Proof.
  unfold FS.makedirs, FS.exists_. intros Hmk Hq.
  now rewrite (mkdir_chain_other _ _ _ _ _ Hmk Hq).
Qed.

(** Every proper ancestor of a path is followed in it by a slash. *)
Lemma parents_aux_prefix (acc p q : string) :
  q ∈ FS.parents_aux acc p -> exists r, acc +:+ p = q +:+ String "/" r.
Proof.
  revert acc. induction p as [|c p IH]; intros acc; simpl.
  - intros H. now apply elem_of_nil in H.
  - intros H. apply elem_of_app in H as [H | H].
    + destruct (Ascii.eqb c "/") eqn:Ec; simpl in H.
      * apply Ascii.eqb_eq in Ec. subst c.
        destruct (String.eqb acc ""); simpl in H.
        -- now apply elem_of_nil in H.
        -- apply list_elem_of_singleton in H. subst q. eauto.
      * now apply elem_of_nil in H.
    + destruct (IH _ H) as [r Hr]. exists r. rewrite <- Hr.
      now rewrite string_app_assoc.
Qed.

Lemma parents_prefix (p q : string) :
  q ∈ FS.parents p -> exists r, p = q +:+ String "/" r.
Proof. intros H. now apply parents_aux_prefix in H. Qed.

Lemma parents_shorter (p q : string) :
  q ∈ FS.parents p ++ [p] -> (String.length q <= String.length p)%nat.
Proof.
  intros H. apply elem_of_app in H as [H | H].
  - apply parents_prefix in H as [r ->].
    rewrite string_app_length. lia.
  - apply list_elem_of_singleton in H. now subst q.
Qed.

Lemma has_slash_app (a b : string) :
  FS.has_slash (a +:+ b) = FS.has_slash a || FS.has_slash b.
Proof.
  induction a as [|c a IH]; [reflexivity|].
  rewrite string_app_cons. simpl. rewrite IH. now rewrite orb_assoc.
Qed.

Lemma has_slash_after (a r : string) :
  FS.has_slash (a +:+ String "/" r) = true.
Proof. rewrite has_slash_app. simpl. apply orb_true_r. Qed.

(** A slash beyond the length of [a] lies in what follows [a]. *)
Lemma slash_in_tail (a t b r : string) :
  a +:+ t = b +:+ String "/" r ->
  (String.length a <= String.length b)%nat ->
  FS.has_slash t = true.
Proof.
  revert b. induction a as [|c a IH]; intros b.
  - rewrite string_app_nil_l. intros -> _. apply has_slash_after.
  - destruct b as [|c' b]; simpl String.length; [lia|].
    rewrite !string_app_cons. intros [= _ H] Hlen. apply (IH b H). lia.
Qed.

(** Splitting at the last slash is unambiguous. *)
Lemma split_last_slash (a n b m : string) :
  a +:+ String "/" n = b +:+ String "/" m ->
  FS.has_slash n = false -> FS.has_slash m = false ->
  a = b /\ n = m.
Proof.
  revert b. induction a as [|c a IH]; intros b.
  - rewrite string_app_nil_l. destruct b as [|c' b].
    + rewrite string_app_nil_l. now intros [= ->].
    + rewrite string_app_cons. intros [= _ ->] Hn _.
      now rewrite has_slash_after in Hn.
  - destruct b as [|c' b].
    + rewrite string_app_nil_l, string_app_cons. intros [= _ <-] _ Hm.
      now rewrite has_slash_after in Hm.
    + rewrite !string_app_cons. intros [= -> H] Hn Hm.
      destruct (IH b H Hn Hm) as [-> ->]. now split.
Qed.

(** ** Where the cached image lives *)

Lemma resolve_absolute (here p : string) :
  starts_with_slash p = true -> resolve here p = p.
Proof. intros H. unfold resolve, path_join. now rewrite H. Qed.

Lemma starts_with_slash_app (a b : string) :
  starts_with_slash a = true -> starts_with_slash (a +:+ b) = true.
Proof. destruct a as [|c a]; [discriminate|]. now rewrite string_app_cons. Qed.

Lemma no_slash_not_absolute (t : string) :
  FS.has_slash t = false -> starts_with_slash t = false.
Proof.
  destruct t as [|c t]; [reflexivity|]. simpl.
  intros H. now apply orb_false_iff in H as [-> _].
Qed.

Lemma ends_with_slash_app (a : string) (c : ascii) (b : string) :
  ends_with_slash (a +:+ String c b) = ends_with_slash (String c b).
Proof.
  induction a as [|x a IH]; [reflexivity|].
  rewrite string_app_cons.
  change (ends_with_slash (String x (a +:+ String c b)))
    with (match a +:+ String c b with
          | EmptyString => Ascii.eqb x "/"
          | String _ _ => ends_with_slash (a +:+ String c b)
          end).
  rewrite <- IH. destruct a; reflexivity.
Qed.

(** The shared directories sit side by side under the working directory. *)
Lemma shared_dirs_shape (here : string) :
  starts_with_slash here = true ->
  exists X, starts_with_slash X = true
            /\ DOWNLOAD_DIR here = X +:+ "download"
            /\ OUTPUT_DIR here = X +:+ "output".
Proof.
  intros Habs. unfold DOWNLOAD_DIR, OUTPUT_DIR, path_join.
  change (starts_with_slash "download") with false.
  change (starts_with_slash "output") with false. cbv iota.
  destruct (String.eqb here "" || ends_with_slash here).
  - exists here. now repeat split.
  - exists (here +:+ "/"). rewrite !string_app_assoc.
    split; [now apply starts_with_slash_app | now split].
Qed.

Lemma base_path_shape (X name : string) :
  starts_with_slash name = false ->
  path_join (X +:+ "download") name
  = (X +:+ "download") +:+ String "/" name.
Proof.
  intros Hn. unfold path_join. rewrite Hn.
  rewrite (ends_with_slash_app X "d" "ownload").
  change (ends_with_slash "download") with false.
  rewrite orb_false_r.
  destruct (String.eqb (X +:+ "download") "") eqn:E; [|reflexivity].
  apply String.eqb_eq in E. apply (f_equal String.length) in E.
  rewrite string_app_length in E. simpl in E. lia.
Qed.

Lemma workdir_shape (timestamp : string) :
  FS.has_slash timestamp = false ->
  workdir_of timestamp = "/dev/shm/build" +:+ String "/" timestamp.
Proof.
  intros H. unfold workdir_of, path_join.
  now rewrite (no_slash_not_absolute _ H).
Qed.

(** The names under which the two base images are cached. *)
Lemma known_image_name (os_tag base_url : string) :
  dict_get BASE_IMAGE_URLS os_tag = Some base_url ->
  FS.has_slash (basename base_url) = false
  /\ (31 <= String.length (basename base_url))%nat.
Proof.
  unfold BASE_IMAGE_URLS, dict_get.
  destruct (String.eqb "debian-13" os_tag).
  - intros [= <-]. vm_compute. split; [reflexivity | lia].
  - destruct (String.eqb "ubuntu-2204" os_tag); [|discriminate].
    intros [= <-]. vm_compute. split; [reflexivity | lia].
Qed.

Lemma download_is_not_build (X : string) :
  X +:+ "download" <> "/dev/shm/build".
Proof.
  intros H. pose proof (f_equal String.length H) as Hlen.
  rewrite string_app_length in Hlen. simpl in Hlen.
  destruct X as [|c1 [|c2 [|c3 [|c4 [|c5 [|c6 [|c7 X]]]]]]];
    simpl in Hlen; try lia.
  vm_compute in H. discriminate H.
Qed.

(** None of the three directories [main] creates, nor any ancestor of
    them, is the path of the cached image. *)
Lemma base_path_not_created (here timestamp os_tag base_url : string) :
  starts_with_slash here = true ->
  FS.has_slash timestamp = false ->
  dict_get BASE_IMAGE_URLS os_tag = Some base_url ->
  let B := base_path_of here base_url in
  starts_with_slash B = true
  /\ starts_with_slash (DOWNLOAD_DIR here) = true
  /\ starts_with_slash (OUTPUT_DIR here) = true
  /\ starts_with_slash (workdir_of timestamp) = true
  /\ (B ∉ FS.parents (DOWNLOAD_DIR here) ++ [DOWNLOAD_DIR here])
  /\ (B ∉ FS.parents (OUTPUT_DIR here) ++ [OUTPUT_DIR here])
  /\ (B ∉ FS.parents (workdir_of timestamp) ++ [workdir_of timestamp]).
Proof.
  intros Habs Hts Hurl B.
  destruct (shared_dirs_shape here Habs) as (X & HX & HD & HO).
  destruct (known_image_name _ _ Hurl) as [Hname Hlen].
  assert (HB : B = (X +:+ "download") +:+ String "/" (basename base_url)).
  { unfold B, base_path_of. rewrite HD.
    apply base_path_shape. now apply no_slash_not_absolute. }
  assert (HBlen : String.length B
                  = (String.length X + 9 + String.length (basename base_url))%nat).
  { rewrite HB, !string_app_length. simpl. lia. }
  rewrite (workdir_shape _ Hts).
  split; [rewrite HB, string_app_assoc; now apply starts_with_slash_app|].
  split; [rewrite HD; now apply starts_with_slash_app|].
  split; [rewrite HO; now apply starts_with_slash_app|].
  split; [reflexivity|].
  split; [|split].
  - intros H. apply parents_shorter in H. rewrite HD in H.
    rewrite string_app_length in H. simpl in H. lia.
  - intros H. apply parents_shorter in H. rewrite HO in H.
    rewrite string_app_length in H. simpl in H. lia.
  - intros H. apply elem_of_app in H as [H | H].
    + apply parents_prefix in H as [r Hr].
      change ("/dev/shm/build" +:+ String "/" timestamp)
        with ("/dev/shm/build/" +:+ timestamp) in Hr.
      apply slash_in_tail in Hr; [congruence|]. simpl. lia.
    + apply list_elem_of_singleton in H. rewrite HB in H.
      apply split_last_slash in H as [H _]; [|assumption|assumption].
      now apply download_is_not_build in H.
Qed.

(** ** Conditional acquisition *)

Lemma count_acquisitions_plan (here timestamp os_tag base_url : string)
    (middle : list string) (cached : bool) :
  count_acquisitions (plan here timestamp os_tag base_url middle cached)
  = if cached then 0%nat else 1%nat.
Proof.
  unfold count_acquisitions, plan, commands.
  rewrite customize_cmd_flat. now destruct cached.
Qed.

Lemma cached_as_at_start (here timestamp os_tag base_url : string)
    (f0 f1 f2 f3 : gmap string node) :
  starts_with_slash here = true ->
  FS.has_slash timestamp = false ->
  dict_get BASE_IMAGE_URLS os_tag = Some base_url ->
  FS.makedirs f0 (resolve here (DOWNLOAD_DIR here)) = inr f1 ->
  FS.makedirs f1 (resolve here (OUTPUT_DIR here)) = inr f2 ->
  FS.makedirs f2 (resolve here (workdir_of timestamp)) = inr f3 ->
  FS.exists_ f3 (resolve here (base_path_of here base_url))
  = FS.exists_ f0 (base_path_of here base_url).
Proof.
  intros Habs Hts Hurl H1 H2 H3.
  destruct (base_path_not_created here timestamp os_tag base_url
              Habs Hts Hurl) as (HB & HD & HO & HW & ND & NO & NW).
  rewrite resolve_absolute in H1, H2, H3 by assumption.
  rewrite resolve_absolute by assumption.
  rewrite (exists_other _ _ _ _ H3 NW).
  rewrite (exists_other _ _ _ _ H2 NO).
  now rewrite (exists_other _ _ _ _ H1 ND).
Qed.

(** C7: the download is conditional on the cache. In a run that gets as
    far as the commands, no download command is issued when the image file
    of the selected OS is already in the download directory, and exactly one
    is issued when it is not. *)
Theorem acquisition_conditional (argv : list string) (timestamp cwd0 : string)
    (fs0 : gmap string node) (keys0 : list Z) (d : string) :
  starts_with_slash cwd0 = true ->
  FS.has_slash timestamp = false ->
  run_end (build argv timestamp cwd0 fs0 keys0) = Done d ->
  let r := build argv timestamp cwd0 fs0 keys0 in
  exists os_tag base_url rest,
    Single.tui_single_select "Select target OS:"
      (dict_keys BASE_IMAGE_URLS) keys0 = Returned os_tag rest
    /\ dict_get BASE_IMAGE_URLS os_tag = Some base_url
    /\ let base_path := path_join (DOWNLOAD_DIR cwd0) (basename base_url) in
       (FS.exists_ fs0 base_path = true ->
          count_acquisitions (run_calls r) = 0%nat
          /\ Print ("Using existing image: " +:+ base_path) ∈ run_calls r)
       /\ (FS.exists_ fs0 base_path = false ->
             count_acquisitions (run_calls r) = 1%nat
             /\ RunCmd ["axel"; base_url; "-o"; base_path] ∈ run_calls r).
Proof.
  intros Habs Hts Hd r.
  destruct (build_done argv timestamp cwd0 fs0 keys0 d Hd)
    as (os_tag & base_url & middle & s1 & f1 & f2 & Hfront & H1 & H2 & H3
        & Hcalls & _).
  destruct (front_inl _ _ _ _ _ Hfront) as ([rest Hsel] & Hurl & _ & _).
  simpl in Hsel.
  exists os_tag, base_url, rest.
  split; [exact Hsel|]. split; [exact Hurl|].
  fold (base_path_of cwd0 base_url). cbv zeta.
  fold r in Hcalls, H3.
  rewrite (cached_as_at_start cwd0 timestamp os_tag base_url fs0 f1 f2
             (run_fs r) Habs Hts Hurl H1 H2 H3) in Hcalls.
  rewrite Hcalls, count_acquisitions_plan.
  split; intros ->; (split; [reflexivity|]); unfold plan;
    cbn [app map]; repeat constructor.
Qed.

Lemma acquisition_conditional_witness :
  starts_with_slash "/home/u" = true
  /\ FS.has_slash "20240101_000000" = false
  /\ run_end (build ["build.py"] "20240101_000000" "/home/u" sample_fs
                [10; 258; 32; 10])
     = Done "/home/u/output/debian-13-users-20240101_000000.img"
  /\ exists os_tag base_url rest,
       Single.tui_single_select "Select target OS:"
         (dict_keys BASE_IMAGE_URLS) [10; 258; 32; 10]
       = Returned os_tag rest
       /\ dict_get BASE_IMAGE_URLS os_tag = Some base_url
       /\ let base_path :=
            path_join (DOWNLOAD_DIR "/home/u") (basename base_url) in
          (FS.exists_ sample_fs base_path = true ->
             count_acquisitions
               (run_calls (build ["build.py"] "20240101_000000" "/home/u"
                             sample_fs [10; 258; 32; 10])) = 0%nat
             /\ Print ("Using existing image: " +:+ base_path)
                ∈ run_calls (build ["build.py"] "20240101_000000" "/home/u"
                               sample_fs [10; 258; 32; 10]))
          /\ (FS.exists_ sample_fs base_path = false ->
                count_acquisitions
                  (run_calls (build ["build.py"] "20240101_000000" "/home/u"
                                sample_fs [10; 258; 32; 10])) = 1%nat
                /\ RunCmd ["axel"; base_url; "-o"; base_path]
                   ∈ run_calls (build ["build.py"] "20240101_000000"
                                  "/home/u" sample_fs [10; 258; 32; 10])).
Proof.
  assert (Hd : run_end (build ["build.py"] "20240101_000000" "/home/u"
                          sample_fs [10; 258; 32; 10])
               = Done "/home/u/output/debian-13-users-20240101_000000.img")
    by (vm_compute; reflexivity).
  split; [reflexivity|]. split; [reflexivity|]. split; [exact Hd|].
  exact (acquisition_conditional ["build.py"] "20240101_000000" "/home/u"
           sample_fs [10; 258; 32; 10] _ eq_refl eq_refl Hd).
Defined.

(** The two sample worlds side by side: one download command without the
    cached image, none with it. *)
Example acquisition_samples :
  count_acquisitions
    (run_calls (build ["build.py"] "20240101_000000" "/home/u" sample_fs
                  [10; 10])) = 1%nat
  /\ count_acquisitions
       (run_calls (build ["build.py"] "20240102_000000" "/home/u"
                     sample_fs_cached [10; 10])) = 0%nat.
Proof. split; vm_compute; reflexivity. Qed.

(** ** Runs that complete *)

Lemma multi_step_enter (options : list string) (key : Z) (st : Multi.state) :
  is_enter key = true -> Multi.step options key st = Break.
Proof.
  intros H. unfold Multi.step.
  destruct (is_enter_not_arrow key H) as (-> & -> & ->). simpl.
  now rewrite H.
Qed.

(** With options to choose from, the ordered multi-select returns as soon as
    the queue holds an Enter. *)
Lemma multi_loop_confirms (options : list string) (keys : list Z)
    (st : Multi.state) :
  0 <= Multi.current st < Z.of_nat (length options) ->
  existsb is_enter keys = true ->
  exists st' rest, Multi.loop options keys st = Confirmed st' rest.
Proof.
  revert st. induction keys as [|key keys IH]; intros st Hst; simpl.
  - discriminate.
  - intros H. destruct (Multi.step options key st) as [st1| |e] eqn:E.
    + destruct (is_enter key) eqn:Ek.
      * rewrite multi_step_enter in E by exact Ek. discriminate.
      * simpl in H. apply IH; [|exact H].
        eapply multi_step_range; eauto.
    + eauto.
    + now apply multi_step_no_fail in E.
Qed.

Lemma multi_select_returns (options : list string) (keys : list Z) :
  options <> [] ->
  existsb is_enter keys = true ->
  exists chosen rest,
    Multi.tui_ordered_multi_select options keys = Returned chosen rest.
Proof.
  intros Hne Hk. unfold Multi.tui_ordered_multi_select.
  destruct (multi_loop_confirms options keys Multi.init
              (nonempty_range _ Hne) Hk) as (st & rest & ->).
  eauto.
Qed.

(** Once the first half has succeeded and the three directories can be
    created, [main] runs to its last line. *)
Lemma build_completes (argv : list string) (timestamp cwd0 : string)
    (fs0 f1 f2 f3 : gmap string node) (keys0 : list Z)
    (os_tag base_url : string) (middle : list string) (s1 : proc) :
  front (start cwd0 fs0 keys0) = (inl (os_tag, base_url, middle), s1) ->
  FS.makedirs fs0 (resolve cwd0 (DOWNLOAD_DIR cwd0)) = inr f1 ->
  FS.makedirs f1 (resolve cwd0 (OUTPUT_DIR cwd0)) = inr f2 ->
  FS.makedirs f2 (resolve cwd0 (workdir_of timestamp)) = inr f3 ->
  run_end (build argv timestamp cwd0 fs0 keys0)
  = Done (final_dest_of cwd0 os_tag middle timestamp).
Proof.
  intros Hfront H1 H2 H3. unfold build.
  rewrite main_phases. unfold bind. rewrite Hfront.
  destruct (front_frame _ _ _ Hfront) as (Hcwd & Hfs & Hcalls).
  simpl fst. simpl snd. rewrite back_spec. cbv zeta.
  rewrite Hcwd, Hfs. simpl cwd. simpl fs.
  now rewrite H1, H2, H3.
Qed.

(** * Further properties of the selection loops *)

Lemma single_step_continue_not_enter (options : list string) (key c c' : Z) :
  Single.step options key c = Continue c' -> is_enter key = false.
Proof.
  intros H. destruct (is_enter key) eqn:E; [|reflexivity].
  rewrite single_step_enter in H by exact E. discriminate.
Qed.

Lemma single_step_break_enter (options : list string) (key c : Z) :
  Single.step options key c = Break -> is_enter key = true.
Proof.
  unfold Single.step.
  destruct ((key =? KEY_UP) && (c >? 0)); [discriminate|].
  destruct ((key =? KEY_DOWN) && (c <? Z.of_nat (length options) - 1));
    [discriminate|].
  now destruct (is_enter key).
Qed.

Lemma multi_step_continue_not_enter (options : list string) (key : Z)
    (st st' : Multi.state) :
  Multi.step options key st = Continue st' -> is_enter key = false.
Proof.
  intros H. destruct (is_enter key) eqn:E; [|reflexivity].
  rewrite multi_step_enter in H by exact E. discriminate.
Qed.

Lemma multi_step_break_enter (options : list string) (key : Z)
    (st : Multi.state) :
  Multi.step options key st = Break -> is_enter key = true.
Proof.
  unfold Multi.step.
  destruct ((key =? KEY_UP) && (Multi.current st >? 0)); [discriminate|].
  destruct ((key =? KEY_DOWN)
            && (Multi.current st <? Z.of_nat (length options) - 1));
    [discriminate|].
  destruct (key =? KEY_SPACE).
  - destruct (py_index options (Multi.current st)); [|discriminate].
    destruct (str_in s (Multi.selected st)); [|discriminate].
    destruct (py_remove s (Multi.selected st)); discriminate.
  - now destruct (is_enter key).
Qed.

Lemma single_loop_split (options : list string) (keys rest : list Z)
    (c c' : Z) :
  Single.loop options keys c = Confirmed c' rest ->
  exists pre key,
    keys = pre ++ key :: rest
    /\ is_enter key = true /\ existsb is_enter pre = false.
Proof.
  revert c. induction keys as [|k keys IH]; intros c; simpl; [discriminate|].
  destruct (Single.step options k c) as [c1| |e] eqn:E; [| |discriminate].
  - intros H. destruct (IH _ H) as (pre & key & -> & Hk & Hpre).
    exists (k :: pre), key. split; [reflexivity|]. split; [exact Hk|].
    simpl. now rewrite (single_step_continue_not_enter _ _ _ _ E).
  - intros [= _ <-]. exists [], k. split; [reflexivity|].
    split; [|reflexivity]. eapply single_step_break_enter; eauto.
Qed.

Lemma multi_loop_split (options : list string) (keys rest : list Z)
    (st st' : Multi.state) :
  Multi.loop options keys st = Confirmed st' rest ->
  exists pre key,
    keys = pre ++ key :: rest
    /\ is_enter key = true /\ existsb is_enter pre = false.
Proof.
  revert st. induction keys as [|k keys IH]; intros st; simpl; [discriminate|].
  destruct (Multi.step options k st) as [st1| |e] eqn:E; [| |discriminate].
  - intros H. destruct (IH _ H) as (pre & key & -> & Hk & Hpre).
    exists (k :: pre), key. split; [reflexivity|]. split; [exact Hk|].
    simpl. now rewrite (multi_step_continue_not_enter _ _ _ _ E).
  - intros [= _ <-]. exists [], k. split; [reflexivity|].
    split; [|reflexivity]. eapply multi_step_break_enter; eauto.
Qed.

(** X4: a menu reads the queue up to and including the first Enter and no
    further: what either selection returns leaves exactly the keys after
    that Enter for whoever reads next, and the single select returns one of
    the options it was given. *)
Theorem menus_stop_at_first_enter (prompt : string) (options : list string)
    (keys : list Z) :
  (forall opt rest,
     Single.tui_single_select prompt options keys = Returned opt rest ->
     opt ∈ options
     /\ exists pre key,
          keys = pre ++ key :: rest
          /\ is_enter key = true /\ existsb is_enter pre = false)
  /\ (forall chosen rest,
        Multi.tui_ordered_multi_select options keys = Returned chosen rest ->
        exists pre key,
          keys = pre ++ key :: rest
          /\ is_enter key = true /\ existsb is_enter pre = false).
Proof.
  split.
  - intros opt rest H.
    split; [eapply single_select_returns_option; eauto|].
    unfold Single.tui_single_select in H.
    destruct (Single.loop options keys 0) as [c|c r|e] eqn:E;
      try discriminate.
    destruct (py_index options c); [|discriminate].
    injection H as _ <-. eapply single_loop_split; eauto.
  - intros chosen rest H. unfold Multi.tui_ordered_multi_select in H.
    destruct (Multi.loop options keys Multi.init) as [st|st r|e] eqn:E;
      try discriminate.
    injection H as _ <-. eapply multi_loop_split; eauto.
Qed.

Lemma menus_stop_at_first_enter_witness :
  Single.tui_single_select "Select target OS:" ["debian-13"; "ubuntu-2204"]
    [258; 10; 32; 10] = Returned "ubuntu-2204" [32; 10]
  /\ "ubuntu-2204" ∈ ["debian-13"; "ubuntu-2204"]
  /\ exists pre key,
       [258; 10; 32; 10] = pre ++ key :: [32; 10]
       /\ is_enter key = true /\ existsb is_enter pre = false.
Proof.
  split; [reflexivity|].
  exact (proj1 (menus_stop_at_first_enter "Select target OS:"
                  ["debian-13"; "ubuntu-2204"] [258; 10; 32; 10])
           "ubuntu-2204" [32; 10] eq_refl).
Defined.

Lemma multi_loop_blocks (options : list string) (keys : list Z)
    (st : Multi.state) :
  0 <= Multi.current st < Z.of_nat (length options) ->
  existsb is_enter keys = false ->
  exists st', Multi.loop options keys st = Waiting st'.
Proof.
  revert st. induction keys as [|key keys IH]; intros st Hst; simpl.
  - eauto.
  - intros H. apply orb_false_iff in H as [Hk H].
    destruct (Multi.step options key st) as [st1| |e] eqn:E.
    + apply IH; [|exact H]. eapply multi_step_range; eauto.
    + apply multi_step_break_enter in E. congruence.
    + now apply multi_step_no_fail in E.
Qed.



Lemma multi_step_empty_other (key : Z) :
  (key =? KEY_SPACE) || is_enter key = false ->
  Multi.step [] key Multi.init = Continue Multi.init.
Proof.
  intros H. apply orb_false_iff in H as [Hs He].
  unfold Multi.step, Multi.init. simpl.
  rewrite Hs, He, !andb_false_r. reflexivity.
Qed.

Lemma multi_loop_empty_skip (pre keys : list Z) :
  existsb (fun k => (k =? KEY_SPACE) || is_enter k) pre = false ->
  Multi.loop [] (pre ++ keys) Multi.init = Multi.loop [] keys Multi.init.
Proof.
  induction pre as [|k pre IH]; [reflexivity|].
  intros H. apply orb_false_iff in H as [Hk H].
  change ((k :: pre) ++ keys) with (k :: (pre ++ keys)).
  cbn [Multi.loop]. rewrite (multi_step_empty_other k Hk). now apply IH.
Qed.

(** X2: with no option to choose from, the ordered multi-select still
    returns the empty selection when Enter comes first, but a space pressed
    before any Enter raises [IndexError]: the toggle indexes an empty
    list. *)
Theorem multi_select_on_no_options (pre keys : list Z) (enter : Z) :
  existsb (fun k => (k =? KEY_SPACE) || is_enter k) pre = false ->
  is_enter enter = true ->
  Multi.tui_ordered_multi_select [] (pre ++ KEY_SPACE :: keys)
    = Raised IndexError
  /\ Multi.tui_ordered_multi_select [] (pre ++ enter :: keys)
     = Returned [] keys.
Proof.
  intros Hpre Henter. unfold Multi.tui_ordered_multi_select.
  rewrite !multi_loop_empty_skip by exact Hpre. split.
  - reflexivity.
  - cbn [Multi.loop]. now rewrite (multi_step_enter [] enter _ Henter).
Qed.

Lemma multi_select_on_no_options_witness :
  existsb (fun k => (k =? KEY_SPACE) || is_enter k) [258; 259; 258] = false
  /\ is_enter 13 = true
  /\ Multi.tui_ordered_multi_select [] ([258; 259; 258] ++ KEY_SPACE :: [10])
     = Raised IndexError
  /\ Multi.tui_ordered_multi_select [] ([258; 259; 258] ++ 13 :: [10])
     = Returned [] [10].
Proof.
  split; [reflexivity|]. split; [reflexivity|].
  exact (multi_select_on_no_options [258; 259; 258] [10] 13
           eq_refl eq_refl).
Defined.

(** X5: the ordered multi-select never returns more items than it was
    offered. *)
Theorem chosen_no_longer_than_options (options : list string)
    (keys rest : list Z) (chosen : list string) :
  Multi.tui_ordered_multi_select options keys = Returned chosen rest ->
  (length chosen <= length options)%nat.
Proof.
  unfold Multi.tui_ordered_multi_select. intros H.
  pose proof (multi_loop_chosen_ok options keys Multi.init
                (init_chosen_ok options)) as Hok.
  destruct (Multi.loop options keys Multi.init) as [st|st r|e];
    try discriminate.
  injection H as <- _. destruct Hok as [Hnd Hin].
  apply submseteq_length, NoDup_submseteq; assumption.
Qed.

Lemma chosen_no_longer_than_options_witness :
  Multi.tui_ordered_multi_select ["net"; "users"]
    [32; 258; 32; 259; 32; 32; 10] = Returned ["users"; "net"] []
  /\ (length ["users"; "net"] <= length ["net"; "users"])%nat.
Proof.
  split; [reflexivity|].
  exact (chosen_no_longer_than_options ["net"; "users"]
           [32; 258; 32; 259; 32; 32; 10] [] ["users"; "net"] eq_refl).
Defined.

Lemma py_remove_last (x : string) (l : list string) :
  x ∉ l -> py_remove x (l ++ [x]) = Some l.
Proof.
  induction l as [|y l IH]; intros Hx; simpl.
  - now rewrite String.eqb_refl.
  - apply not_elem_of_cons in Hx as [Hne Hx].
    destruct (String.eqb y x) eqn:E.
    + apply String.eqb_eq in E. congruence.
    + now rewrite (IH Hx).
Qed.

(** X6: toggling an option that is not chosen and toggling it again is a
    round trip: the first space appends it to the chosen list, the second
    removes it and leaves the list and the cursor as they were. *)
Theorem toggle_on_off_round_trip (options : list string) (st : Multi.state)
    (opt : string) :
  py_index options (Multi.current st) = Some opt ->
  opt ∉ Multi.selected st ->
  exists on,
    Multi.step options KEY_SPACE st = Continue on
    /\ Multi.selected on = Multi.selected st ++ [opt]
    /\ Multi.step options KEY_SPACE on = Continue st.
Proof.
  intros Hopt Hnot.
  assert (Hstep : forall chosen,
            Multi.step options KEY_SPACE
              {| Multi.current := Multi.current st; Multi.selected := chosen |}
            = if str_in opt chosen then
                match py_remove opt chosen with
                | Some l => Continue {| Multi.current := Multi.current st;
                                        Multi.selected := l |}
                | None => Fail ValueError
                end
              else Continue {| Multi.current := Multi.current st;
                               Multi.selected := chosen ++ [opt] |}).
  { intros chosen. unfold Multi.step. simpl. rewrite Hopt.
    destruct (Multi.current st >? 0);
      destruct (Multi.current st <? Z.of_nat (length options) - 1);
      reflexivity. }
  exists {| Multi.current := Multi.current st;
            Multi.selected := Multi.selected st ++ [opt] |}.
  destruct st as [cur chosen]. simpl in *.
  split; [|split; [reflexivity|]].
  - rewrite Hstep. apply str_in_false in Hnot. now rewrite Hnot.
  - rewrite Hstep.
    assert (Hin : str_in opt (chosen ++ [opt]) = true).
    { apply str_in_true, elem_of_app. right. left. }
    now rewrite Hin, py_remove_last.
Qed.

Lemma toggle_on_off_round_trip_witness :
  py_index ["net"; "users"] 1 = Some "users"
  /\ exists on,
       Multi.step ["net"; "users"] KEY_SPACE
         {| Multi.current := 1; Multi.selected := ["net"] |} = Continue on
       /\ Multi.selected on = ["net"] ++ ["users"]
       /\ Multi.step ["net"; "users"] KEY_SPACE on
          = Continue {| Multi.current := 1; Multi.selected := ["net"] |}.
Proof.
  split; [reflexivity|].
  apply (toggle_on_off_round_trip ["net"; "users"]
           {| Multi.current := 1; Multi.selected := ["net"] |} "users").
  - reflexivity.
  - apply (bool_decide_unpack _). vm_compute. exact I.
Defined.

(** * Further properties of whole runs *)

Lemma issued_app (l1 l2 : list call) :
  issued (l1 ++ l2) = issued l1 ++ issued l2.
Proof. unfold issued. apply omap_app. Qed.




Lemma shell_commands_real (l : list call) :
  shell_commands (concat (map (prims false) l))
  = map space_joined (issued l).
Proof.
  induction l as [|c l IH]; [reflexivity|].
  cbn [map concat]. unfold shell_commands in *. rewrite omap_app, IH.
  destruct c as [p|cmd|line]; try reflexivity.
  unfold issued. cbn [omap prims run_cmd map app].
  now rewrite str_join_space_joined.
Qed.

Lemma shell_commands_dry (l : list call) :
  shell_commands (concat (map (prims true) l)) = [].
Proof.
  induction l as [|c l IH]; [reflexivity|].
  cbn [map concat]. unfold shell_commands in *. rewrite omap_app, IH.
  now destruct c.
Qed.

Lemma build_ignores_argv (argv argv' : list string) (timestamp cwd0 : string)
    (fs0 : gmap string node) (keys0 : list Z) :
  run_end (build argv timestamp cwd0 fs0 keys0)
    = run_end (build argv' timestamp cwd0 fs0 keys0)
  /\ run_calls (build argv timestamp cwd0 fs0 keys0)
     = run_calls (build argv' timestamp cwd0 fs0 keys0)
  /\ run_fs (build argv timestamp cwd0 fs0 keys0)
     = run_fs (build argv' timestamp cwd0 fs0 keys0).
Proof.
  unfold build.
  now destruct (main timestamp (start cwd0 fs0 keys0)) as [? ?].
Qed.

(** X7: a dry run previews the real run. From the same starting point the
    two end the same way, and the strings the real run hands to the shell
    are, in order, exactly the commands the dry run reports, while the dry
    run hands the shell nothing. *)
Theorem dry_run_previews_real_run (argv_real argv_dry : list string)
    (timestamp cwd0 : string) (fs0 : gmap string node) (keys0 : list Z) :
  DRY_RUN_of argv_real = false ->
  DRY_RUN_of argv_dry = true ->
  let real := build argv_real timestamp cwd0 fs0 keys0 in
  let dry := build argv_dry timestamp cwd0 fs0 keys0 in
  run_end real = run_end dry
  /\ shell_commands (run_effects real)
     = map space_joined (issued (run_calls dry))
  /\ shell_commands (run_effects dry) = []
  /\ (forall cmd, cmd ∈ issued (run_calls dry) ->
        dry_report cmd ∈ run_effects dry).
Proof.
  intros Hreal Hdry real dry. subst real dry.
  destruct (build_ignores_argv argv_real argv_dry timestamp cwd0 fs0 keys0)
    as (Hend & Hcalls & _).
  rewrite !build_effects, Hreal, Hdry, Hcalls.
  split; [exact Hend|]. split; [apply shell_commands_real|].
  split; [apply shell_commands_dry|].
  intros cmd Hcmd.
  apply (effects_of_call true _ (RunCmd cmd)).
  - unfold issued in Hcmd. apply list_elem_of_omap in Hcmd as (c & Hc & Heq).
    destruct c; try discriminate. now injection Heq as ->.
  - rewrite prims_dry_run_cmd. left.
Qed.

Lemma dry_run_previews_real_run_witness :
  DRY_RUN_of ["build.py"] = false
  /\ DRY_RUN_of ["build.py"; "--dry-run"] = true
  /\ shell_commands
       (run_effects (build ["build.py"] "20240101_000000" "/home/u"
                       sample_fs [10; 10]))
     = map space_joined
         (issued (run_calls (build ["build.py"; "--dry-run"]
                               "20240101_000000" "/home/u" sample_fs
                               [10; 10]))).
Proof.
  split; [reflexivity|]. split; [reflexivity|].
  exact (proj1 (proj2 (dry_run_previews_real_run ["build.py"]
                         ["build.py"; "--dry-run"] "20240101_000000"
                         "/home/u" sample_fs [10; 10] eq_refl eq_refl))).
Defined.

Lemma main_abort_issues_nothing (timestamp : string) (s s' : proc)
    (a : abort) :
  main timestamp s = (inr a, s') ->
  issued (calls s') = issued (calls s)
  /\ (calls s' = calls s -> fs s' = fs s).
Proof.
  rewrite main_phases. unfold bind.
  destruct (front s) as [[[[os_tag base_url] middle]|e] s1] eqn:Ef.
  - destruct (front_frame _ _ _ Ef) as (Hcwd & Hfs & Hcalls).
    simpl fst. simpl snd. rewrite back_spec. cbv zeta.
    rewrite Hcwd, Hfs, Hcalls.
    destruct (FS.makedirs (fs s) _) as [e|f1].
    { intros [= <- <-]. simpl. rewrite Hcalls, issued_app.
      split; [now rewrite app_nil_r | now rewrite Hfs]. }
    destruct (FS.makedirs f1 _) as [e|f2].
    { intros [= <- <-]. simpl. rewrite issued_app.
      split; [now rewrite app_nil_r|].
      intros H. apply (f_equal length) in H. rewrite length_app in H.
      simpl in H. lia. }
    destruct (FS.makedirs f2 _) as [e|f3]; [|discriminate].
    intros [= <- <-]. simpl. rewrite issued_app.
    split; [now rewrite app_nil_r|].
    intros H. apply (f_equal length) in H. rewrite length_app in H.
    simpl in H. lia.
  - destruct (front_frame _ _ _ Ef) as (Hcwd & Hfs & Hcalls).
    intros [= <- <-]. split; [now rewrite Hcalls | now intros _].
Qed.


(** X9: nothing is touched before both anchor scripts are seen. A run that
    made any call at all had its OS selection confirmed and found both
    [base] and [clean] as regular files, and its first call creates the
    download directory; a run that made no call left the filesystem as it
    was. *)
Theorem no_call_before_validation (argv : list string)
    (timestamp cwd0 : string) (fs0 : gmap string node) (keys0 : list Z) :
  let r := build argv timestamp cwd0 fs0 keys0 in
  (run_calls r = [] -> run_fs r = fs0)
  /\ (run_calls r <> [] ->
        head (run_calls r) = Some (Makedirs (DOWNLOAD_DIR cwd0))
        /\ exists os_tag rest,
             Single.tui_single_select "Select target OS:"
               (dict_keys BASE_IMAGE_URLS) keys0 = Returned os_tag rest
             /\ missing_anchor fs0 cwd0 os_tag = None).
Proof.
  intros r. subst r. unfold build.
  destruct (main timestamp (start cwd0 fs0 keys0)) as [[d|a] s'] eqn:Em;
    cbn [run_calls run_fs].
  - apply main_done in Em.
    destruct Em as (os_tag & base_url & middle & s1 & f1 & f2 & Hfront
                    & _ & _ & _ & Hcalls & _).
    simpl in Hcalls. split.
    + intros H. rewrite H in Hcalls. discriminate.
    + intros _. split; [now rewrite Hcalls|].
      destruct (front_inl _ _ _ _ _ Hfront) as ([rest Hsel] & _ & Hb & Hc).
      exists os_tag, rest. split; [exact Hsel|].
      unfold missing_anchor. simpl in Hb, Hc. now rewrite Hb, Hc.
  - split.
    + intros H. now apply (main_abort_issues_nothing _ _ _ _ Em).
    + intros Hne. rewrite main_phases in Em. unfold bind in Em.
      destruct (front (start cwd0 fs0 keys0))
        as [[[[os_tag base_url] middle]|e] s1] eqn:Ef.
      * destruct (front_frame _ _ _ Ef) as (Hcwd & Hfs & Hcalls).
        destruct (front_inl _ _ _ _ _ Ef) as ([rest Hsel] & _ & Hb & Hc).
        simpl fst in Em. simpl snd in Em.
        rewrite back_spec in Em. cbv zeta in Em.
        rewrite Hcwd, Hfs, Hcalls in Em. simpl in Em.
        assert (Hhead : head (calls s')
                        = Some (Makedirs (DOWNLOAD_DIR cwd0))).
        { destruct (FS.makedirs fs0 _) as [e|f1];
            [injection Em as _ <-; simpl; now rewrite ?Hcalls|].
          destruct (FS.makedirs f1 _) as [e|f2];
            [injection Em as _ <-; simpl; now rewrite ?Hcalls|].
          destruct (FS.makedirs f2 _) as [e|f3];
            [injection Em as _ <-; simpl; now rewrite ?Hcalls|discriminate]. }
        split; [exact Hhead|].
        exists os_tag, rest. split; [exact Hsel|].
        unfold missing_anchor. simpl in Hb, Hc. now rewrite Hb, Hc.
      * destruct (front_frame _ _ _ Ef) as (_ & _ & Hcalls).
        injection Em as _ <-. simpl in Hcalls. contradiction.
Qed.

Lemma elem_of_sorted_insert (x y : string) (l : list string) :
  y ∈ sorted_insert x l <-> y = x \/ y ∈ l.
Proof.
  induction l as [|z l IH]; simpl.
  - rewrite list_elem_of_singleton, elem_of_nil. tauto.
  - destruct (String.leb x z).
    + now rewrite elem_of_cons.
    + rewrite !elem_of_cons, IH. tauto.
Qed.

Lemma elem_of_sorted (y : string) (l : list string) :
  y ∈ sorted l <-> y ∈ l.
Proof.
  unfold sorted. induction l as [|x l IH]; simpl; [reflexivity|].
  now rewrite elem_of_sorted_insert, IH, elem_of_cons.
Qed.

(** What a successful first half says of the customizations it returns. *)
Lemma front_middle (s s' : proc) (os_tag base_url : string)
    (middle : list string) :
  front s = (inl (os_tag, base_url, middle), s') ->
  exists entries,
    FS.listdir (fs s) (resolve (cwd s) (script_dir_of os_tag)) = inr entries
    /\ NoDup middle
    /\ forall m, m ∈ middle ->
         m ∈ entries
         /\ is_candidate (fs s) (cwd s) (script_dir_of os_tag) m = true.
Proof.
  front_open.
  destruct (Single.tui_single_select _ _ (keys s)) as [os rest|e|];
    try discriminate.
  destruct (dict_get BASE_IMAGE_URLS os) as [url|]; try discriminate.
  norm_state rest s.
  destruct (FS.isfile (fs s)
              (resolve (cwd s) (path_join (script_dir_of os) "base")));
    try discriminate.
  norm_state rest s.
  destruct (FS.isfile (fs s)
              (resolve (cwd s) (path_join (script_dir_of os) "clean")));
    try discriminate.
  norm_state rest s.
  destruct (FS.listdir (fs s) _) as [e|entries] eqn:El; try discriminate.
  rewrite regular_non_anchor_is_filter.
  change (fs (set_keys rest s)) with (fs s).
  change (cwd (set_keys rest s)) with (cwd s).
  set (cands := candidates_of (fs s) (cwd s) (script_dir_of os) entries).
  assert (Hcand : forall m, m ∈ sorted cands ->
            m ∈ entries
            /\ is_candidate (fs s) (cwd s) (script_dir_of os) m = true).
  { intros m Hm. apply (proj1 (elem_of_sorted _ _)) in Hm.
    unfold cands, candidates_of in Hm.
    apply list_elem_of_In, List.filter_In in Hm as [Hm Hc].
    split; [now apply list_elem_of_In | exact Hc]. }
  destruct (sorted cands) as [|c cs] eqn:Es.
  - intros [= <- <- <- <-]. exists entries. split; [exact El|].
    split; [apply NoDup_nil_2|]. intros m Hm. now apply elem_of_nil in Hm.
  - unfold tui_ordered_multi_select, of_outcome.
    unfold Multi.tui_ordered_multi_select.
    pose proof (multi_loop_chosen_ok (c :: cs) (keys (set_keys rest s))
                  Multi.init (init_chosen_ok _)) as Hok.
    destruct (Multi.loop (c :: cs) _ Multi.init) as [st|st r|e];
      try discriminate.
    intros [= <- <- <- <-]. destruct Hok as [Hnd Hin].
    exists entries. split; [exact El|]. split; [exact Hnd|].
    intros m Hm. apply Hcand, Hin, Hm.
Qed.

Lemma is_candidate_true (fs0 : gmap string node) (here d f : string) :
  is_candidate fs0 here d f = true ->
  FS.isfile fs0 (resolve here (path_join d f)) = true
  /\ f <> "base" /\ f <> "clean".
Proof.
  unfold is_candidate. intros H. apply andb_true_iff in H as [Hf Hn].
  split; [exact Hf|]. apply negb_true_iff, str_in_false in Hn.
  split; intros ->; apply Hn; [left | right; left].
Qed.

(** X10: every stage of a completed run is a script that was there. The
    customize command of a run that reaches its last line names [base], the
    customizations the run selected in the order it selected them, and
    [clean], for the OS it selected; no stage occurs twice, and each is a
    regular file of that OS's script directory as the run found it. *)
Theorem pipeline_stages_are_files (argv : list string)
    (timestamp cwd0 : string) (fs0 : gmap string node) (keys0 : list Z)
    (d : string) :
  run_end (build argv timestamp cwd0 fs0 keys0) = Done d ->
  let r := build argv timestamp cwd0 fs0 keys0 in
  exists os_tag middle,
    selected_by cwd0 fs0 keys0 os_tag middle
    /\ RunCmd (["virt-customize"; "-a";
                path_join (workdir_of timestamp) (timestamp +:+ ".img");
                "--commands-from-file";
                path_join (script_dir_of os_tag) "base"]
               ++ flat_map (fun m => ["--commands-from-file";
                                      path_join (script_dir_of os_tag) m])
                    middle
               ++ ["--commands-from-file";
                   path_join (script_dir_of os_tag) "clean"])
       ∈ run_calls r
    /\ NoDup ("base" :: middle ++ ["clean"])
    /\ forall stage, stage ∈ "base" :: middle ++ ["clean"] ->
         FS.isfile fs0 (resolve cwd0 (path_join (script_dir_of os_tag) stage))
         = true.
Proof.
  intros Hd r.
  destruct (build_done argv timestamp cwd0 fs0 keys0 d Hd)
    as (os_tag & base_url & middle & s1 & f1 & f2 & Hfront & _ & _ & _
        & Hcalls & _).
  destruct (front_inl _ _ _ _ _ Hfront) as (_ & _ & Hb & Hc).
  destruct (front_middle _ _ _ _ _ Hfront) as (entries & _ & Hnd & Hmid).
  destruct (front_selected _ _ _ _ _ Hfront) as [Hsel _].
  simpl in Hb, Hc, Hmid.
  exists os_tag, middle. split; [exact Hsel|]. split; [|split].
  - assert (Hcmd : customize_cmd
                     (path_join (workdir_of timestamp) (timestamp +:+ ".img"))
                     (script_dir_of os_tag) (assemble middle)
                   = ["virt-customize"; "-a";
                      path_join (workdir_of timestamp) (timestamp +:+ ".img");
                      "--commands-from-file";
                      path_join (script_dir_of os_tag) "base"]
                     ++ flat_map (fun m => ["--commands-from-file";
                                            path_join (script_dir_of os_tag) m])
                          middle
                     ++ ["--commands-from-file";
                         path_join (script_dir_of os_tag) "clean"]).
    { rewrite customize_cmd_flat. unfold assemble. simpl.
      now rewrite flat_map_app. }
    rewrite <- Hcmd. subst r. rewrite Hcalls. unfold plan, commands.
    destruct (FS.exists_ _ _); cbn [app map]; repeat constructor.
  - apply NoDup_cons. split.
    + intros H. apply elem_of_app in H as [H | H].
      * apply Hmid in H as [_ H]. apply is_candidate_true in H. tauto.
      * apply list_elem_of_singleton in H. discriminate.
    + apply NoDup_app. split; [exact Hnd|]. split; [|apply NoDup_singleton].
      intros m Hm Hm'. apply list_elem_of_singleton in Hm'. subst m.
      apply Hmid in Hm as [_ H]. apply is_candidate_true in H. tauto.
  - intros stage Hs.
    apply elem_of_cons in Hs as [-> | Hs]; [exact Hb|].
    apply elem_of_app in Hs as [Hs | Hs].
    + apply Hmid in Hs as [_ H]. now apply is_candidate_true in H.
    + apply list_elem_of_singleton in Hs. now subst stage.
Qed.

Lemma pipeline_stages_are_files_witness :
  run_end (build ["build.py"] "20240101_000000" "/home/u" sample_fs
             [10; 258; 32; 259; 32; 10])
    = Done "/home/u/output/debian-13-users-net-20240101_000000.img"
  /\ exists os_tag middle,
       selected_by "/home/u" sample_fs [10; 258; 32; 259; 32; 10]
         os_tag middle
       /\ RunCmd (["virt-customize"; "-a";
                   path_join (workdir_of "20240101_000000")
                     ("20240101_000000" +:+ ".img");
                   "--commands-from-file";
                   path_join (script_dir_of os_tag) "base"]
                  ++ flat_map (fun m => ["--commands-from-file";
                                         path_join (script_dir_of os_tag) m])
                       middle
                  ++ ["--commands-from-file";
                      path_join (script_dir_of os_tag) "clean"])
          ∈ run_calls (build ["build.py"] "20240101_000000" "/home/u"
                         sample_fs [10; 258; 32; 259; 32; 10])
       /\ NoDup ("base" :: middle ++ ["clean"])
       /\ forall stage, stage ∈ "base" :: middle ++ ["clean"] ->
            FS.isfile sample_fs
              (resolve "/home/u" (path_join (script_dir_of os_tag) stage))
            = true.
Proof.
  assert (Hd : run_end (build ["build.py"] "20240101_000000" "/home/u"
                          sample_fs [10; 258; 32; 259; 32; 10])
               = Done "/home/u/output/debian-13-users-net-20240101_000000.img")
    by (vm_compute; reflexivity).
  split; [exact Hd|].
  exact (pipeline_stages_are_files ["build.py"] "20240101_000000" "/home/u"
           sample_fs [10; 258; 32; 259; 32; 10] _ Hd).
Defined.

(** ** What a run can and cannot raise *)








(** ** Names of different runs *)

Lemma string_app_inv_head (a b c : string) : a +:+ b = a +:+ c -> b = c.
Proof.
  induction a as [|x a IH]; [now rewrite !string_app_nil_l|].
  rewrite !string_app_cons. intros [= H]. now apply IH.
Qed.

Lemma string_app_inv_tail (a b c : string) : b +:+ a = c +:+ a -> b = c.
Proof.
  revert c. induction b as [|x b IH]; intros c H.
  - apply (f_equal String.length) in H as Hlen.
    rewrite !string_app_length in Hlen.
    destruct c; [reflexivity | simpl in Hlen; lia].
  - destruct c as [|y c].
    + apply (f_equal String.length) in H.
      rewrite !string_app_length in H. simpl in H. lia.
    + rewrite !string_app_cons in H. injection H as -> H.
      now rewrite (IH c H).
Qed.

Lemma path_join_inv (a b1 b2 : string) :
  starts_with_slash b1 = starts_with_slash b2 ->
  path_join a b1 = path_join a b2 -> b1 = b2.
Proof.
  unfold path_join. intros <-.
  destruct (starts_with_slash b1); [easy|].
  destruct (String.eqb a "" || ends_with_slash a).
  - apply string_app_inv_head.
  - intros H. apply string_app_inv_head in H.
    now apply string_app_inv_head in H.
Qed.

Lemma final_img_absolute (os_tag : string) (middle : list string)
    (ts1 ts2 : string) :
  starts_with_slash (final_img os_tag middle ts1)
  = starts_with_slash (final_img os_tag middle ts2).
Proof.
  unfold final_img, final_stem. rewrite !string_app_assoc.
  now destruct (tag os_tag middle).
Qed.

(** X12: runs at different timestamps never share a name. For the same OS
    and the same customizations, two different timestamps give different
    artifact paths in the output directory and, the timestamps being free of
    slashes, different workspace directories. *)
Theorem timestamps_separate_runs (here os_tag : string)
    (middle : list string) (ts1 ts2 : string) :
  FS.has_slash ts1 = false -> FS.has_slash ts2 = false ->
  ts1 <> ts2 ->
  final_dest_of here os_tag middle ts1 <> final_dest_of here os_tag middle ts2
  /\ workdir_of ts1 <> workdir_of ts2.
Proof.
  intros H1 H2 Hne. split.
  - intros H. apply Hne. unfold final_dest_of in H.
    apply path_join_inv in H; [|apply final_img_absolute].
    unfold final_img, final_stem in H.
    apply string_app_inv_tail in H.
    apply string_app_inv_head in H. now apply string_app_inv_head in H.
  - intros H. apply Hne. rewrite !workdir_shape in H by assumption.
    apply string_app_inv_head in H. now injection H.
Qed.

Lemma timestamps_separate_runs_witness :
  FS.has_slash "20240101_000000" = false
  /\ FS.has_slash "20240101_000001" = false
  /\ "20240101_000000" <> "20240101_000001"
  /\ final_dest_of "/home/u" "debian-13" ["net"] "20240101_000000"
     <> final_dest_of "/home/u" "debian-13" ["net"] "20240101_000001"
  /\ workdir_of "20240101_000000" <> workdir_of "20240101_000001".
Proof.
  assert (Hne : "20240101_000000" <> "20240101_000001") by discriminate.
  split; [reflexivity|]. split; [reflexivity|]. split; [exact Hne|].
  exact (timestamps_separate_runs "/home/u" "debian-13" ["net"]
           "20240101_000000" "20240101_000001" eq_refl eq_refl Hne).
Defined.

(** ** Holding an arrow key *)

Lemma single_loop_downs (options : list string) (k : nat) (keys : list Z)
    (c : Z) :
  0 <= c < Z.of_nat (length options) ->
  Single.loop options (repeat KEY_DOWN k ++ keys) c
  = Single.loop options keys
      (Z.min (c + Z.of_nat k) (Z.of_nat (length options) - 1)).
Proof.
  revert c. induction k as [|k IH]; intros c Hc.
  - cbn [repeat app]. f_equal. lia.
  - cbn [repeat app Single.loop]. unfold Single.step.
    change (KEY_DOWN =? KEY_UP) with false. cbn [andb].
    change (KEY_DOWN =? KEY_DOWN) with true. cbn [andb].
    destruct (c <? Z.of_nat (length options) - 1) eqn:E.
    + apply Z.ltb_lt in E. rewrite IH by lia. f_equal. lia.
    + apply Z.ltb_ge in E. change (is_enter KEY_DOWN) with false. cbv iota.
      rewrite IH by lia. f_equal. lia.
Qed.

Lemma single_loop_ups (options : list string) (k : nat) (keys : list Z)
    (c : Z) :
  0 <= c < Z.of_nat (length options) ->
  Single.loop options (repeat KEY_UP k ++ keys) c
  = Single.loop options keys (Z.max (c - Z.of_nat k) 0).
Proof.
  revert c. induction k as [|k IH]; intros c Hc.
  - cbn [repeat app]. f_equal. lia.
  - cbn [repeat app Single.loop]. unfold Single.step.
    change (KEY_UP =? KEY_UP) with true. cbn [andb].
    destruct (c >? 0) eqn:E.
    + apply Z.gtb_lt in E. rewrite IH by lia. f_equal. lia.
    + change (KEY_UP =? KEY_DOWN) with false. cbn [andb].
      change (is_enter KEY_UP) with false. cbv iota.
      assert (c = 0) as -> by (rewrite Z.gtb_ltb in E;
                               apply Z.ltb_ge in E; lia).
      rewrite IH by lia. f_equal. lia.
Qed.

(** X13: an arrow key held down stops at the end of the list. In the single
    select, [k] downs from the top followed by Enter return the option at
    index [min k (len(options) - 1)], and downs followed by at least as many
    ups and Enter return the first option: the cursor never wraps round. *)
Theorem held_arrow_stops_at_end (prompt : string) (options : list string)
    (k k' : nat) :
  options <> [] ->
  (exists opt,
     options !! Nat.min k (length options - 1) = Some opt
     /\ Single.tui_single_select prompt options (repeat KEY_DOWN k ++ [10])
        = Returned opt [])
  /\ ((k <= k')%nat ->
        exists first,
          options !! 0%nat = Some first
          /\ Single.tui_single_select prompt options
               (repeat KEY_DOWN k ++ repeat KEY_UP k' ++ [10])
             = Returned first []).
Proof.
  intros Hne. pose proof (nonempty_range _ Hne) as H0.
  assert (Hlen : (0 < length options)%nat) by (destruct options; simpl; [congruence | lia]).
  split.
  - destruct (lookup_lt_is_Some_2 options (Nat.min k (length options - 1)))
      as [opt Hopt]; [lia|].
    exists opt. split; [exact Hopt|].
    unfold Single.tui_single_select.
    rewrite single_loop_downs by exact H0.
    cbn [Single.loop]. rewrite single_step_enter by reflexivity.
    rewrite py_index_in_range by lia.
    replace (Z.to_nat (Z.min (0 + Z.of_nat k)
                         (Z.of_nat (length options) - 1)))
      with (Nat.min k (length options - 1)) by lia.
    now rewrite Hopt.
  - intros Hk.
    destruct (lookup_lt_is_Some_2 options 0%nat) as [first Hfirst]; [lia|].
    exists first. split; [exact Hfirst|].
    unfold Single.tui_single_select.
    rewrite single_loop_downs by exact H0.
    rewrite single_loop_ups by lia.
    cbn [Single.loop]. rewrite single_step_enter by reflexivity.
    rewrite py_index_in_range by lia.
    replace (Z.to_nat (Z.max (Z.min (0 + Z.of_nat k)
                                (Z.of_nat (length options) - 1)
                              - Z.of_nat k') 0))
      with 0%nat by lia.
    now rewrite Hfirst.
Qed.

Lemma held_arrow_stops_at_end_witness :
  ["debian-13"; "ubuntu-2204"] <> []
  /\ exists opt,
       ["debian-13"; "ubuntu-2204"] !! Nat.min 5 (length ["debian-13"; "ubuntu-2204"] - 1)
       = Some opt
       /\ Single.tui_single_select "Select target OS:"
            ["debian-13"; "ubuntu-2204"] (repeat KEY_DOWN 5 ++ [10])
          = Returned opt [].
Proof.
  assert (Hne : ["debian-13"; "ubuntu-2204"] <> []) by discriminate.
  split; [exact Hne|].
  exact (proj1 (held_arrow_stops_at_end "Select target OS:"
                  ["debian-13"; "ubuntu-2204"] 5 7 Hne)).
Defined.

(** ** Names that coincide *)

(** X14: the artifact name does not tell the customizations apart. Joining
    with hyphens, two scripts [a] and [b] chosen in that order give the same
    tag, and so the same artifact name, as one script named [a-b]. *)
Theorem hyphenated_script_names_collide (os_tag a b : string)
    (others : list string) (timestamp : string) :
  tag os_tag (a :: b :: others) = tag os_tag ((a +:+ "-" +:+ b) :: others)
  /\ final_img os_tag (a :: b :: others) timestamp
     = final_img os_tag ((a +:+ "-" +:+ b) :: others) timestamp.
Proof.
  assert (Htag : tag os_tag (a :: b :: others)
                 = tag os_tag ((a +:+ "-" +:+ b) :: others)).
  { unfold tag, str_join. do 2 f_equal.
    destruct others as [|c others].
    - reflexivity.
    - change (String.concat "-" (a :: b :: c :: others))
        with (a +:+ "-" +:+ b +:+ "-" +:+ String.concat "-" (c :: others)).
      change (String.concat "-" ((a +:+ "-" +:+ b) :: c :: others))
        with ((a +:+ "-" +:+ b) +:+ "-" +:+ String.concat "-" (c :: others)).
      now rewrite !string_app_assoc. }
  split; [exact Htag|]. unfold final_img, final_stem. now rewrite Htag.
Qed.
